(** * Shallow embedding of the sapphire ground-particle simulation

    Sources embedded here:
    - [sapphire/clusters.py]: [Detector], [Station], [BaseCluster];
    - [sapphire/simulations/groundparticles.py]: [GroundParticlesSimulation],
      [DetectorBoundarySimulation], [DetectorSignalSimulation];
    - [sapphire/esd.py]: [read_line_and_store_event], the event loop of
      [download_data], [_first_available_numbered_path];
    - [sapphire/corsika/qsub.py]: [CorsikaBatch.gen_random_seeds] and
      [taken_seeds].

    Conventions of the embedding.
    - A Python [float] is a rational ([Q]) and float arithmetic is exact
      rational arithmetic; Python [int]/[long] values are [Z].
    - [math.cos], [math.sin] and [math.sqrt] are functions from floats to
      floats supplied by the C library; they are an interface ([Libm]), of
      which only [cos 0 = 1] and [sin 0 = 0] are ever used.
    - Random draws and the collaborators of [HiSPARCSimulation] (transport
      times, GPS uncertainty, MIPs) are explicit arguments.
    - A raised Python exception is the [Raise] outcome of the [exc] monad.
    - The built-in conversions [int(s)] and [float(s)] are an interface
      ([PyBuiltins]); the file system is the finite set of existing paths.
    - A detector reaches its station and cluster through back references in
      Python; here the owners are passed explicitly, so re-posing a cluster
      is seen by every later query that is handed the new cluster. *)

From Stdlib Require Import QArith Qround Qabs Qminmax ZArith List Lia Lqa.
From Stdlib Require Import Permutation Sorted Ascii.
From stdpp Require Import gmap strings pretty.

Import ListNotations.
Local Open Scope Q_scope.

(** ** Exceptions *)

Inductive exc (A : Type) : Type :=
| Ok (a : A)
| Raise (msg : string).

Arguments Ok {A} a.
Arguments Raise {A} msg.

Definition exc_bind {A B : Type} (m : exc A) (k : A -> exc B) : exc B :=
  match m with
  | Ok a => k a
  | Raise e => Raise e
  end.

Global Instance exc_mret : MRet exc := fun A a => Ok a.
Global Instance exc_mbind : MBind exc := fun A B k m => exc_bind m k.

Fixpoint exc_foldM {A S : Type} (f : S -> A -> exc S) (l : list A) (s : S)
  : exc S :=
  match l with
  | [] => Ok s
  | a :: l' => s' ← f s a; exc_foldM f l' s'
  end.

Definition raises {A : Type} (m : exc A) : Prop :=
  match m with
  | Ok _ => False
  | Raise _ => True
  end.

(** ** The C math library, as far as the geometry needs it *)

Class Libm : Type := {
  cos : Q -> Q;
  sin : Q -> Q;
  sqrt : Q -> Q;
  cos_0 : cos 0 = 1;
  sin_0 : sin 0 = 0
}.

(** A rational stand-in for the C library, used to run the embedding on
    concrete clusters: truncated power series and a Newton step sequence.
    It agrees with the C library where the examples below evaluate it, at
    the angle 0 ([cos(0.0) = 1.0] and [sin(0.0) = 0.0] exactly). *)
Definition series_cos (a : Q) : Q :=
  Qred (1 - a * a / 2 + a * a * a * a / 24 - a * a * a * a * a * a / 720).

Definition series_sin (a : Q) : Q :=
  Qred (a - a * a * a / 6 + a * a * a * a * a / 120).

Fixpoint newton_sqrt (steps : nat) (v guess : Q) : Q :=
  match steps with
  | O => guess
  | S k =>
      if Qeq_bool guess 0 then 0
      else newton_sqrt k v (Qred ((guess + v / guess) / 2))
  end.

Definition libm_series : Libm :=
  {| cos := series_cos;
     sin := series_sin;
     sqrt := fun v => newton_sqrt 6 v (Qred v);
     cos_0 := eq_refl;
     sin_0 := eq_refl |}.

(** [math.pi]: the double nearest to pi, 884279719003555 / 2^48. *)
Definition pi : Q := 884279719003555 # 281474976710656.

(** ** clusters.py *)

Record Detector : Type := {
  Detector_x : Q;
  Detector_y : Q;
  Detector_orientation : string
}.

Record Station : Type := {
  Station_station_id : Z;
  Station_position : Q * Q;
  Station_angle : Q;
  (* [__detectors = None] until the first [_add_detector] *)
  Station_detectors : option (list Detector);
  (* set by [GroundParticlesSimulation.__init__] *)
  Station_gps_offset : Q
}.

Record BaseCluster : Type := {
  BaseCluster_x : Q;
  BaseCluster_y : Q;
  BaseCluster_alpha : Q;
  (* [__stations = None] until the first [_add_station] *)
  BaseCluster_stations : option (list Station)
}.

(** [Detector.__init__]: stores its arguments, checks nothing. *)
Definition Detector_init (x y : Q) (orientation : string) : exc Detector :=
  Ok {| Detector_x := x; Detector_y := y;
        Detector_orientation := orientation |}.

Definition detector_size : Q * Q := (1 # 2, 1).

Definition Detector_get_area : Q := fst detector_size * snd detector_size.

(** [Station._add_detector] *)
Definition Station__add_detector (s : Station) (d : Q * Q * string)
  : exc Station :=
  let '(x, y, orientation) := d in
  det ← Detector_init x y orientation;
  let ds := match Station_detectors s with
            | None => []
            | Some l => l
            end in
  Ok {| Station_station_id := Station_station_id s;
        Station_position := Station_position s;
        Station_angle := Station_angle s;
        Station_detectors := Some (ds ++ [det]);
        Station_gps_offset := Station_gps_offset s |}.

(** [Station.__init__] *)
Definition Station_init (station_id : Z) (position : Q * Q) (angle : Q)
  (detectors : list (Q * Q * string)) : exc Station :=
  exc_foldM Station__add_detector detectors
    {| Station_station_id := station_id;
       Station_position := position;
       Station_angle := angle;
       Station_detectors := None;
       Station_gps_offset := 0 |}.

(** [BaseCluster.__init__] *)
Definition BaseCluster_init (position : Q * Q) (angle : Q) : BaseCluster :=
  {| BaseCluster_x := fst position;
     BaseCluster_y := snd position;
     BaseCluster_alpha := angle;
     BaseCluster_stations := None |}.

(** [BaseCluster._add_station]: ids are 1-based, in insertion order. *)
Definition BaseCluster__add_station (c : BaseCluster) (position : Q * Q)
  (angle : Q) (detectors : list (Q * Q * string)) : exc BaseCluster :=
  let sts := match BaseCluster_stations c with
             | None => []
             | Some l => l
             end in
  let station_id := (Z.of_nat (length sts) + 1)%Z in
  st ← Station_init station_id position angle detectors;
  Ok {| BaseCluster_x := BaseCluster_x c;
        BaseCluster_y := BaseCluster_y c;
        BaseCluster_alpha := BaseCluster_alpha c;
        BaseCluster_stations := Some (sts ++ [st]) |}.

Definition BaseCluster_get_xyalpha_coordinates (c : BaseCluster)
  : Q * Q * Q :=
  (BaseCluster_x c, BaseCluster_y c, BaseCluster_alpha c).

Definition BaseCluster_set_xyalpha_coordinates (c : BaseCluster)
  (x y alpha : Q) : BaseCluster :=
  {| BaseCluster_x := x;
     BaseCluster_y := y;
     BaseCluster_alpha := alpha;
     BaseCluster_stations := BaseCluster_stations c |}.

(** Modelled from the spec: [BaseCluster.set_coordinates(x, y, z, alpha)] is
    called by [_prepare_cluster_for_shower] but clusters.py does not define
    it.  The spec describes the pose setter as overwriting the cluster's
    absolute pose [(x, y, alpha)] without touching stored station and
    detector offsets; the cluster has no vertical coordinate to receive
    [z], which is dropped. *)
Definition BaseCluster_set_coordinates (c : BaseCluster)
  (x y z alpha : Q) : BaseCluster :=
  BaseCluster_set_xyalpha_coordinates c x y alpha.

Section Geometry.
Context {libm : Libm}.

(** [Station.get_xyalpha_coordinates] *)
Definition Station_get_xyalpha_coordinates (c : BaseCluster) (s : Station)
  : Q * Q * Q :=
  let '(X, Y, alpha) := BaseCluster_get_xyalpha_coordinates c in
  let '(sx, sy) := Station_position s in
  let xp := sx * cos alpha - sy * sin alpha in
  let yp := sx * sin alpha + sy * cos alpha in
  let x := X + xp in
  let y := Y + yp in
  let angle := alpha + Station_angle s in
  (x, y, angle).

(** [Detector.get_xy_coordinates] *)
Definition Detector_get_xy_coordinates (c : BaseCluster) (s : Station)
  (d : Detector) : Q * Q :=
  let '(X, Y, alpha) := Station_get_xyalpha_coordinates c s in
  let sina := sin alpha in
  let cosa := cos alpha in
  let x := Detector_x d * cosa - Detector_y d * sina in
  let y := Detector_x d * sina + Detector_y d * cosa in
  (X + x, Y + y).

(** [Detector.get_corners] *)
Definition Detector_get_corners (c : BaseCluster) (s : Station)
  (d : Detector) : exc (list (Q * Q)) :=
  let '(X, Y, alpha) := Station_get_xyalpha_coordinates c s in
  let x := Detector_x d in
  let y := Detector_y d in
  let orientation := Detector_orientation d in
  let size := detector_size in
  let dx := fst size / 2 in
  let dy := snd size / 2 in
  corners ←
    (if String.eqb orientation "UD" then
       Ok [(x - dx, y - dy); (x + dx, y - dy); (x + dx, y + dy);
           (x - dx, y + dy)]
     else if String.eqb orientation "LR" then
       Ok [(x - dy, y - dx); (x + dy, y - dx); (x + dy, y + dx);
           (x - dy, y + dx)]
     else
       Raise ("Unknown detector orientation: " ++ orientation)%string);
  let sina := sin alpha in
  let cosa := cos alpha in
  let corners :=
    map (fun p : Q * Q =>
           let '(x, y) := p in (x * cosa - y * sina, x * sina + y * cosa))
        corners in
  Ok (map (fun p : Q * Q => let '(x, y) := p in (X + x, Y + y)) corners).
End Geometry.

(** ** groundparticles.py *)

(** *** Numbers as the simulation prints and converts them *)

(** Nearest integer, ties to even: the rounding of C's [printf]. *)
Definition round_half_even (q : Q) : Z :=
  let f := Qfloor q in
  match Qcompare (q - inject_Z f) (1 # 2) with
  | Lt => f
  | Gt => (f + 1)%Z
  | Eq => if Z.even f then f else (f + 1)%Z
  end.

(** ['%f' % v]: the value printed with six decimals, which is what the
    query parser then reads back. *)
Definition format_f (v : Q) : Q :=
  round_half_even (v * 1000000) # 1000000.

(** [int(v)] on a float: truncation toward zero. *)
Definition py_int (v : Q) : Z := Z.quot (Qnum v) (Zpos (Qden v)).

(** [long(1e9)] *)
Definition long_1e9 : Z := 1000000000.

(** *** The ground-particle table and its queries *)

Record row : Type := {
  row_x : Q;
  row_y : Q;
  row_t : Q;
  row_particle_id : Z;
  row_p_x : Q;
  row_p_y : Q;
  row_p_z : Q
}.

Inductive column : Type := col_x | col_y | col_particle_id.

(** The condition strings handed to [Table.where], as syntax.  A name in a
    condition is a column of the table when there is one ([x], [y],
    [particle_id]); any other name ([b11], [b12], [b21], [b22]) is read from
    the caller's local variables, and appears here as its value. *)
Inductive expr : Type :=
| EConst (v : Q)
| ECol (c : column)
| ESub (a b : expr)
| EMul (a b : expr).

Inductive cond : Type :=
| CGe (a b : expr)
| CLe (a b : expr)
| CLt (a b : expr)
| CAnd (p q : cond).

Definition column_value (c : column) (r : row) : Q :=
  match c with
  | col_x => row_x r
  | col_y => row_y r
  | col_particle_id => inject_Z (row_particle_id r)
  end.

Fixpoint eval_expr (e : expr) (r : row) : Q :=
  match e with
  | EConst v => v
  | ECol c => column_value c r
  | ESub a b => eval_expr a r - eval_expr b r
  | EMul a b => eval_expr a r * eval_expr b r
  end.

Fixpoint eval_cond (q : cond) (r : row) : bool :=
  match q with
  | CGe a b => Qle_bool (eval_expr b r) (eval_expr a r)
  | CLe a b => Qle_bool (eval_expr a r) (eval_expr b r)
  | CLt a b => negb (Qle_bool (eval_expr b r) (eval_expr a r))
  | CAnd p q => eval_cond p r && eval_cond q r
  end.

(** [table.where(query)]: the rows satisfying the condition, in table order. *)
Definition Table_where (query : cond) (table : list row) : list row :=
  List.filter (eval_cond query) table.

(** ['(x >= %f) & (x <= %f) & (y >= %f) & (y <= %f)'] *)
Definition box_condition (x_lo x_hi y_lo y_hi : Q) : cond :=
  CAnd (CAnd (CAnd (CGe (ECol col_x) (EConst (format_f x_lo)))
                   (CLe (ECol col_x) (EConst (format_f x_hi))))
             (CGe (ECol col_y) (EConst (format_f y_lo))))
       (CLe (ECol col_y) (EConst (format_f y_hi))).

(** ['(particle_id >= 2) & (particle_id <= 6)'] *)
Definition with_particle_filter (q : cond) : cond :=
  CAnd (CAnd q (CGe (ECol col_particle_id) (EConst 2)))
       (CLe (ECol col_particle_id) (EConst 6)).

(** *** Observables *)

(** The dict [{'n': ..., 't': ...}] returned for one detector. *)
Record observables : Type := {
  obs_n : Q;
  obs_t : Q
}.

Definition no_particles : observables := {| obs_n := 0; obs_t := -999 |}.

(** [min] of a non-empty list of floats. *)
Definition py_min (x : Q) (l : list Q) : Q := fold_left Qmin l x.

(** [for i in range(n_detected): detected[i] += transporttimes[i]] *)
Fixpoint add_transporttimes (detected transporttimes : list Q)
  : exc (list Q) :=
  match detected, transporttimes with
  | [], _ => Ok []
  | _ :: _, [] => Raise "IndexError: index out of bounds"
  | d :: ds, dt :: dts =>
      rest ← add_transporttimes ds dts; Ok ((d + dt) :: rest)
  end.

(** The part of [simulate_detector_response] after the query, shared by the
    square and the polygon strategy. *)
Definition count_and_first_arrival (detected : list Q)
  (simulate_signal_transport_time : nat -> list Q) : exc observables :=
  match detected with
  | [] => Ok no_particles
  | _ :: _ =>
      let n_detected := length detected in
      let transporttimes := simulate_signal_transport_time n_detected in
      detected' ← add_transporttimes detected transporttimes;
      match detected' with
      | [] => Raise "ValueError: min() arg is an empty sequence"
      | d :: ds =>
          Ok {| obs_n := inject_Z (Z.of_nat n_detected);
                obs_t := py_min d ds |}
      end
  end.

(** *** Shower parameters *)

(** The attributes read from [event_header] and [event_end]. *)
Record event_header : Type := {
  header_zenith : Q;
  header_azimuth : Q;
  header_energy : Q;
  header_particle : Z
}.

Record event_end : Type := {
  end_n_electrons_levels : Q
}.

(** The dict yielded by [generate_shower_parameters]. *)
Record shower_parameters : Type := {
  sp_ext_timestamp : Z;
  sp_core_pos : Q * Q;
  sp_azimuth : Q;
  sp_zenith : Q;
  sp_size : Q;
  sp_energy : Q;
  sp_particle : Z
}.

(** The three [np.random.uniform] draws of one shower:
    [uniform(0, R ** 2)], [uniform(-pi, pi)] and [uniform(-pi, pi)]. *)
Record draws : Type := {
  draw_r2 : Q;
  draw_phi : Q;
  draw_alpha : Q
}.

Section Simulation.
Context {libm : Libm}.

(** *** [GroundParticlesSimulation]: the square approximation *)

Definition GroundParticlesSimulation_query (c : BaseCluster) (s : Station)
  (d : Detector) : cond :=
  let detector_boundary := 3535534 # 10000000 in
  let '(x, y) := Detector_get_xy_coordinates c s d in
  with_particle_filter
    (box_condition (x - detector_boundary) (x + detector_boundary)
                   (y - detector_boundary) (x + detector_boundary)).

(** The rows matched by the query of [simulate_detector_response]. *)
Definition GroundParticlesSimulation_selected (c : BaseCluster)
  (s : Station) (d : Detector) (groundparticles : list row) : list row :=
  Table_where (GroundParticlesSimulation_query c s d) groundparticles.

Definition GroundParticlesSimulation_simulate_detector_response
  (c : BaseCluster) (s : Station) (d : Detector)
  (groundparticles : list row)
  (simulate_signal_transport_time : nat -> list Q) : exc observables :=
  let detected :=
    map row_t (GroundParticlesSimulation_selected c s d groundparticles) in
  count_and_first_arrival detected simulate_signal_transport_time.

(** *** [DetectorBoundarySimulation]: the rotated rectangle *)

(** [get_line_boundary_eqs]; the slope is printed with ['%f'] into the
    line's equation, the intercepts are computed from the slope itself. *)
Definition DetectorBoundarySimulation_get_line_boundary_eqs
  (p0 p1 p2 : Q * Q) : Q * expr * Q :=
  let '(x0, y0) := p0 in
  let '(x1, y1) := p1 in
  let '(x2, y2) := p2 in
  let '(b1, line, b2) :=
    if negb (Qeq_bool x0 x1) then
      let a := (y1 - y0) / (x1 - x0) in
      let b1 := y0 - a * x0 in
      let b2 := y2 - a * x2 in
      (b1, ESub (ECol col_y) (EMul (EConst (format_f a)) (ECol col_x)), b2)
    else
      (x0, ECol col_x, x2) in
  if negb (Qle_bool b1 b2) then (b2, line, b1) else (b1, line, b2).

Definition DetectorBoundarySimulation_query (c : BaseCluster) (s : Station)
  (d : Detector) : exc cond :=
  let detector_boundary := 6 # 10 in
  let '(x, y) := Detector_get_xy_coordinates c s d in
  corners ← Detector_get_corners c s d;
  match corners with
  | c0 :: c1 :: c2 :: c3 :: _ =>
      let '(b11, line1, b12) :=
        DetectorBoundarySimulation_get_line_boundary_eqs c0 c1 c2 in
      let '(b21, line2, b22) :=
        DetectorBoundarySimulation_get_line_boundary_eqs c1 c2 c3 in
      Ok (with_particle_filter
            (CAnd (CAnd (CAnd (CAnd
               (box_condition (x - detector_boundary) (x + detector_boundary)
                              (y - detector_boundary) (x + detector_boundary))
               (CLt (EConst b11) line1))
               (CLt line1 (EConst b12)))
               (CLt (EConst b21) line2))
               (CLt line2 (EConst b22))))
  | _ => Raise "IndexError: list index out of range"
  end.

Definition DetectorBoundarySimulation_selected (c : BaseCluster)
  (s : Station) (d : Detector) (groundparticles : list row)
  : exc (list row) :=
  query ← DetectorBoundarySimulation_query c s d;
  Ok (Table_where query groundparticles).

Definition DetectorBoundarySimulation_simulate_detector_response
  (c : BaseCluster) (s : Station) (d : Detector)
  (groundparticles : list row)
  (simulate_signal_transport_time : nat -> list Q) : exc observables :=
  rows ← DetectorBoundarySimulation_selected c s d groundparticles;
  count_and_first_arrival (map row_t rows) simulate_signal_transport_time.

(** *** [DetectorSignalSimulation]: the momentum-weighted signal *)

Definition DetectorSignalSimulation_query (c : BaseCluster) (s : Station)
  (d : Detector) : cond :=
  let detector_boundary := 3535534 # 10000000 in
  let '(x, y) := Detector_get_xy_coordinates c s d in
  with_particle_filter
    (box_condition (x - detector_boundary) (x + detector_boundary)
                   (y - detector_boundary) (x + detector_boundary)).

Definition DetectorSignalSimulation_selected (c : BaseCluster)
  (s : Station) (d : Detector) (groundparticles : list row) : list row :=
  Table_where (DetectorSignalSimulation_query c s d) groundparticles.

Definition DetectorSignalSimulation_simulate_detector_response
  (c : BaseCluster) (s : Station) (d : Detector)
  (groundparticles : list row)
  (simulate_detector_mips : list (Q * Q * Q) -> Q)
  (simulate_signal_transport_time : nat -> list Q) : exc observables :=
  let detected := DetectorSignalSimulation_selected c s d groundparticles in
  match detected with
  | [] => Ok no_particles
  | _ :: _ =>
      let particle_momenta :=
        map (fun p => (row_p_x p, row_p_y p, row_p_z p)) detected in
      let mips := simulate_detector_mips particle_momenta in
      let n_detected := length detected in
      let transporttimes := simulate_signal_transport_time n_detected in
      times ← add_transporttimes (map row_t detected) transporttimes;
      match times with
      | [] => Raise "ValueError: zero-size array to reduction operation"
      | t0 :: ts => Ok {| obs_n := mips; obs_t := py_min t0 ts |}
      end
  end.

(** *** Placing a shower on the cluster *)

(** [_prepare_cluster_for_shower] *)
Definition GroundParticlesSimulation__prepare_cluster_for_shower (cluster : BaseCluster)
  (x y alpha : Q) : BaseCluster :=
  let xp := x * cos (- alpha) - y * sin (- alpha) in
  let yp := x * sin (- alpha) + y * cos (- alpha) in
  BaseCluster_set_coordinates cluster (- xp) (- yp) 0 (- alpha).

(** The azimuth computed in the loop of [generate_shower_parameters]:
    [alpha + event_header.azimuth], followed by the [if]/[elif]. *)
Definition shower_azimuth (alpha event_header_azimuth : Q) : Q :=
  let shower_azimuth := alpha + event_header_azimuth in
  if negb (Qle_bool shower_azimuth pi) then shower_azimuth - 2 * pi
  else if Qle_bool shower_azimuth (- pi) then shower_azimuth + 2 * pi
  else shower_azimuth.

(** One turn of the loop of [generate_shower_parameters], for the shower
    of index [i]: the yielded record and the cluster as re-posed before
    the [yield]. *)
Definition generate_shower (header : event_header) (ending : event_end)
  (cluster : BaseCluster) (i : nat) (dr : draws)
  : shower_parameters * BaseCluster :=
  let r := sqrt (draw_r2 dr) in
  let phi := draw_phi dr in
  let alpha := draw_alpha dr in
  let x := r * cos phi in
  let y := r * sin phi in
  let azimuth := shower_azimuth alpha (header_azimuth header) in
  ({| sp_ext_timestamp := ((long_1e9 + Z.of_nat i) * long_1e9)%Z;
      sp_core_pos := (x, y);
      sp_azimuth := azimuth;
      sp_zenith := header_zenith header;
      sp_size := end_n_electrons_levels ending;
      sp_energy := header_energy header;
      sp_particle := header_particle header |},
   GroundParticlesSimulation__prepare_cluster_for_shower cluster x y alpha).

(** [generate_shower_parameters]: the [N] yielded records, each with the
    cluster pose in force while that shower is simulated.  [rng i] holds
    the three uniform draws of turn [i]. *)
Fixpoint generate_shower_parameters_from (header : event_header)
  (ending : event_end) (rng : nat -> draws) (cluster : BaseCluster)
  (i n : nat) : list (shower_parameters * BaseCluster) :=
  match n with
  | O => []
  | S n' =>
      let '(sp, cluster') := generate_shower header ending cluster i (rng i) in
      (sp, cluster')
        :: generate_shower_parameters_from header ending rng cluster' (S i) n'
  end.

Definition GroundParticlesSimulation_generate_shower_parameters
  (header : event_header) (ending : event_end) (rng : nat -> draws)
  (cluster : BaseCluster) (N : nat)
  : list (shower_parameters * BaseCluster) :=
  generate_shower_parameters_from header ending rng cluster 0 N.
End Simulation.

(** *** Trigger and GPS time stamp *)

(** [simulate_trigger] *)
Definition GroundParticlesSimulation_simulate_trigger
  (detector_observables : list observables) : bool :=
  let detectors_hit :=
    map (fun _ => true)
        (List.filter (fun o => negb (Qle_bool (obs_n o) 0))
                     detector_observables) in
  let sum := fold_left (fun acc b => (acc + Z.b2z b)%Z) detectors_hit 0%Z in
  if (2 <=? sum)%Z then true else false.

(** [sorted] on floats. *)
Fixpoint insert_sorted (v : Q) (l : list Q) : list Q :=
  match l with
  | [] => [v]
  | w :: l' => if Qle_bool v w then v :: l else w :: insert_sorted v l'
  end.

Fixpoint sorted (l : list Q) : list Q :=
  match l with
  | [] => []
  | v :: l' => insert_sorted v (sorted l')
  end.

(** ['n%d' % id] and ['t%d' % id] *)
Definition key (prefix : string) (id : Z) : string :=
  (prefix ++ pretty id)%string.

(** The list comprehension [arrival_times] of [simulate_gps]:
    [station_observables.get('n%d' % id, -1) > 0] guards the subscript
    [station_observables['t%d' % id]], which raises [KeyError] on a missing
    key. *)
Fixpoint arrival_times (station_observables : gmap string Q) (ids : list Z)
  : exc (list Q) :=
  match ids with
  | [] => Ok []
  | id :: ids' =>
      if negb (Qle_bool (default (-1) (station_observables !! key "n" id)) 0)
      then
        match station_observables !! key "t" id with
        | Some t =>
            rest ← arrival_times station_observables ids'; Ok (t :: rest)
        | None => Raise ("KeyError: " ++ key "t" id)%string
        end
      else arrival_times station_observables ids'
  end.

(** [simulate_gps]; [gps_uncertainty] is the value drawn by
    [simulate_gps_uncertainty()]. *)
Definition GroundParticlesSimulation_simulate_gps
  (station_observables : gmap string Q) (shower : shower_parameters)
  (station : Station) (gps_uncertainty : Q) : exc (gmap string Q) :=
  times ← arrival_times station_observables [1; 2; 3; 4]%Z;
  if (1 <? length times)%nat then
    match sorted times !! 1%nat with
    | Some trigger_time =>
        let ext_timestamp :=
          (sp_ext_timestamp shower
           + py_int (trigger_time + Station_gps_offset station
                     + gps_uncertainty))%Z in
        let timestamp := (ext_timestamp / long_1e9)%Z in
        let nanoseconds := (ext_timestamp mod long_1e9)%Z in
        Ok (<["nanoseconds" := inject_Z nanoseconds]>
             (<["timestamp" := inject_Z timestamp]>
               (<["ext_timestamp" := inject_Z ext_timestamp]>
                 station_observables)))
    | None => Raise "IndexError: list index out of range"
    end
  else Ok station_observables.

(** ** The specification's vocabulary *)

(** A point rotated about the origin by an angle. *)
Definition rotate {libm : Libm} (a : Q) (p : Q * Q) : Q * Q :=
  (fst p * cos a - snd p * sin a, fst p * sin a + snd p * cos a).

(** The composition rule of the specification: the child's local offset is
    rotated by the parent's absolute rotation, translated by the parent's
    absolute position, and the rotation angles are added. *)
Definition compose_pose {libm : Libm} (parent : Q * Q * Q) (offset : Q * Q)
  (angle : Q) : Q * Q * Q :=
  let '(PX, PY, PA) := parent in
  let r := rotate PA offset in
  (PX + fst r, PY + snd r, PA + angle).

Definition pose_position (p : Q * Q * Q) : Q * Q := (fst (fst p), snd (fst p)).

(** The symmetric axis-aligned box of half-width [b] around [(x, y)]. *)
Definition in_symmetric_box (x y b : Q) (r : row) : bool :=
  Qle_bool (x - b) (row_x r) && Qle_bool (row_x r) (x + b)
  && Qle_bool (y - b) (row_y r) && Qle_bool (row_y r) (y + b).

(** The interval of particle ids accepted by every query. *)
Definition id_in_query_range (r : row) : Prop :=
  (2 <= row_particle_id r <= 6)%Z.

(** The same interval as a test on a row. *)
Definition id_in_query_range_b (r : row) : bool :=
  (2 <=? row_particle_id r)%Z && (row_particle_id r <=? 6)%Z.

(** The detector built by [Detector.__init__] from one tuple of
    [Station.__init__]'s [detectors] argument. *)
Definition detector_of (d : Q * Q * string) : Detector :=
  {| Detector_x := fst (fst d); Detector_y := snd (fst d);
     Detector_orientation := snd d |}.

(** A station with its detector list replaced. *)
Definition with_detectors (s : Station) (ds : option (list Detector))
  : Station :=
  {| Station_station_id := Station_station_id s;
     Station_position := Station_position s;
     Station_angle := Station_angle s;
     Station_detectors := ds;
     Station_gps_offset := Station_gps_offset s |}.

(** The detectors of a station that report [n > 0], by 1-based index. *)
Definition qualifying (station_observables : gmap string Q) : list Z :=
  List.filter
    (fun id =>
       negb (Qle_bool (default (-1) (station_observables !! key "n" id)) 0))
    [1; 2; 3; 4]%Z.

(** Their arrival times. *)
Definition qualifying_times (station_observables : gmap string Q) : list Q :=
  map (fun id => default 0 (station_observables !! key "t" id))
      (qualifying station_observables).

(** The three GPS fields written for the absolute time [ext_timestamp]. *)
Definition with_gps_timestamp (station_observables : gmap string Q)
  (ext_timestamp : Z) : gmap string Q :=
  <["nanoseconds" := inject_Z (ext_timestamp mod long_1e9)]>
    (<["timestamp" := inject_Z (ext_timestamp / long_1e9)]>
      (<["ext_timestamp" := inject_Z ext_timestamp]> station_observables)).

(** The number of detectors reporting [n > 0]. *)
Definition detectors_with_particles (detector_observables : list observables)
  : nat :=
  length (List.filter (fun o => negb (Qle_bool (obs_n o) 0))
                      detector_observables).

(** [round]: to the nearest integer, a tie away from zero. *)
Definition py_round (v : Q) : Z :=
  if Qle_bool 0 v then Qfloor (v + (1 # 2)) else Qceiling (v - (1 # 2)).

(** The absolute time stamp as the specification words it. *)
Definition spec_ext_timestamp (shower : shower_parameters) (station : Station)
  (trigger_time gps_uncertainty : Q) : Z :=
  (sp_ext_timestamp shower
   + py_round (trigger_time + Station_gps_offset station + gps_uncertainty))%Z.

(** ** Concrete clusters, tables and observables used in the examples *)

Definition make_station (position : Q * Q) (detectors : list Detector)
  : Station :=
  {| Station_station_id := 1;
     Station_position := position;
     Station_angle := 0;
     Station_detectors := Some detectors;
     Station_gps_offset := 0 |}.

Definition detector_UD : Detector :=
  {| Detector_x := 0; Detector_y := 0; Detector_orientation := "UD" |}.

Definition detector_XX : Detector :=
  {| Detector_x := 0; Detector_y := 0; Detector_orientation := "XX" |}.

(** Stations at the cluster centre, ten metres north and ten metres east
    of it. *)
Definition station_centre : Station := make_station (0, 0) [detector_UD].
Definition station_north : Station := make_station (0, 10) [detector_UD].
Definition station_east : Station := make_station (10, 0) [detector_UD].

Definition cluster_of (s : Station) : BaseCluster :=
  {| BaseCluster_x := 0; BaseCluster_y := 0; BaseCluster_alpha := 0;
     BaseCluster_stations := Some [s] |}.

Definition particle (x y : Q) (particle_id : Z) : row :=
  {| row_x := x; row_y := y; row_t := 0; row_particle_id := particle_id;
     row_p_x := 0; row_p_y := 0; row_p_z := 1 |}.

Definition no_transport_delay (n : nat) : list Q := repeat 0 n.

(** The scenario of the specification: [t1 = 3.0], [t2 = 5.0],
    [t3 = t4 = -999], [n1 = n2 = 1], [n3 = n4 = 0]. *)
Definition two_hit_observables : gmap string Q :=
  <["n1" := 1]> (<["t1" := 3]> (<["n2" := 1]> (<["t2" := 5]>
  (<["n3" := 0]> (<["t3" := -999]> (<["n4" := 0]> (<["t4" := -999]> ∅))))))).

Definition first_shower : shower_parameters :=
  {| sp_ext_timestamp := (long_1e9 * long_1e9)%Z;
     sp_core_pos := (0, 0);
     sp_azimuth := 0;
     sp_zenith := 0;
     sp_size := 0;
     sp_energy := 0;
     sp_particle := 14 |}.

Definition station_with_gps_offset (offset : Q) : Station :=
  {| Station_station_id := 1;
     Station_position := (0, 0);
     Station_angle := 0;
     Station_detectors := Some [detector_UD];
     Station_gps_offset := offset |}.

(** ** The rest of clusters.py *)

(** [l[i]] on a Python list: a negative index counts from the end, an index
    outside [-len, len) raises [IndexError]. *)
Definition py_index {A : Type} (l : list A) (i : Z) : exc A :=
  let n := Z.of_nat (length l) in
  let j := if (i <? 0)%Z then (i + n)%Z else i in
  if ((j <? 0) || (n <=? j))%Z then
    Raise "IndexError: list index out of range"
  else
    match l !! Z.to_nat j with
    | Some a => Ok a
    | None => Raise "IndexError: list index out of range"
    end.

(** [math.atan2], the one function of the C library that [Libm] lacks. *)
Class Libm_atan2 : Type := {
  atan2 : Q -> Q -> Q
}.

(** [Station.get_rphialpha_coordinates] *)
Definition Station_get_rphialpha_coordinates {libm : Libm}
  {libm2 : Libm_atan2} (c : BaseCluster) (s : Station) : Q * Q * Q :=
  let '(x, y, alpha) := Station_get_xyalpha_coordinates c s in
  let r := sqrt (x ^ 2 + y ^ 2) in
  let phi := atan2 y x in
  (r, phi, alpha).

(** [Station.calc_r_and_phi_for_detectors]; [self.detectors] is [None] for
    a station without detectors, and subscripting [None] is a [TypeError]. *)
Definition Station_calc_r_and_phi_for_detectors {libm : Libm}
  {libm2 : Libm_atan2} (c : BaseCluster) (s : Station) (s1 s2 : Z)
  : exc (Q * Q) :=
  let subscript (i : Z) : exc Detector :=
    match Station_detectors s with
    | Some ds => py_index ds i
    | None => Raise "TypeError: 'NoneType' object has no attribute '__getitem__'"
    end in
  d1 ← subscript (s1 - 1)%Z;
  let '(x1, y1) := Detector_get_xy_coordinates c s d1 in
  d2 ← subscript (s2 - 1)%Z;
  let '(x2, y2) := Detector_get_xy_coordinates c s d2 in
  let r := sqrt ((x1 - x2) ^ 2 + (y1 - y2) ^ 2) in
  let phi := atan2 (y2 - y1) (x2 - x1) in
  Ok (r, phi).

(** [BaseCluster.get_rphialpha_coordinates] *)
Definition BaseCluster_get_rphialpha_coordinates {libm : Libm}
  {libm2 : Libm_atan2} (c : BaseCluster) : Q * Q * Q :=
  let r := sqrt (BaseCluster_x c ^ 2 + BaseCluster_y c ^ 2) in
  let phi := atan2 (BaseCluster_y c) (BaseCluster_x c) in
  (r, phi, BaseCluster_alpha c).

(** [BaseCluster.set_rphialpha_coordinates] *)
Definition BaseCluster_set_rphialpha_coordinates {libm : Libm}
  (c : BaseCluster) (r phi alpha : Q) : BaseCluster :=
  {| BaseCluster_x := r * cos phi;
     BaseCluster_y := r * sin phi;
     BaseCluster_alpha := alpha;
     BaseCluster_stations := BaseCluster_stations c |}.

(** The detector layout shared by [SimpleCluster] and [SingleStation]. *)
Definition four_detector_layout {libm : Libm} (station_size : Q)
  : list (Q * Q * string) :=
  let a := station_size / 2 in
  let b := a / 3 * sqrt 3 in
  [(0, 2 * b, "UD"%string); (0, 0, "UD"%string);
   (- a, - b, "LR"%string); (a, - b, "LR"%string)].

(** [SimpleCluster.__init__] *)
Definition SimpleCluster_init {libm : Libm} (size : Q) : exc BaseCluster :=
  let self := BaseCluster_init (0, 0) 0 in
  let station_size := 10 in
  let detectors := four_detector_layout station_size in
  let A := size / 2 in
  let B := A / 3 * sqrt 3 in
  self ← BaseCluster__add_station self (0, 2 * B) 0 detectors;
  self ← BaseCluster__add_station self (0, 0) 0 detectors;
  self ← BaseCluster__add_station self (- A, - B) (2 * pi / 3) detectors;
  BaseCluster__add_station self (A, - B) (-2 * pi / 3) detectors.

(** [SingleStation.__init__] *)
Definition SingleStation_init {libm : Libm} (station_size : Q)
  : exc BaseCluster :=
  let self := BaseCluster_init (0, 0) 0 in
  BaseCluster__add_station self (0, 0) 0 (four_detector_layout station_size).

(** ** esd.py *)

(** The built-in conversions [int(s)] and [float(s)] of a string, which
    raise [ValueError] on text they do not accept. *)
Class PyBuiltins : Type := {
  int_of_string : string -> exc Z;
  float_of_string : string -> exc Q
}.

(** A stand-in for the built-ins, used to run the embedding on concrete
    lines: an optional minus sign, decimal digits, and for [float] an
    optional fraction after a point. *)
Definition digit_of_ascii (ch : Ascii.ascii) : option Z :=
  let n := Z.of_N (Ascii.N_of_ascii ch) in
  if ((48 <=? n) && (n <=? 57))%Z then Some (n - 48)%Z else None.

Fixpoint digits_value (s : string) (acc : Z) : option Z :=
  match s with
  | EmptyString => Some acc
  | String ch s' =>
      match digit_of_ascii ch with
      | Some d => digits_value s' (10 * acc + d)%Z
      | None => None
      end
  end.

Definition unsigned_decimal (s : string) : option Z :=
  match s with
  | EmptyString => None
  | String _ _ => digits_value s 0
  end.

Definition decimal_int (s : string) : exc Z :=
  let bad := Raise ("ValueError: invalid literal for int(): " ++ s)%string in
  match s with
  | String "-"%char s' =>
      match unsigned_decimal s' with
      | Some v => Ok (- v)%Z
      | None => bad
      end
  | _ =>
      match unsigned_decimal s with
      | Some v => Ok v
      | None => bad
      end
  end.

Fixpoint split_at_point (s : string) : string * option string :=
  match s with
  | EmptyString => (EmptyString, None)
  | String "."%char s' => (EmptyString, Some s')
  | String ch s' =>
      let '(whole, frac) := split_at_point s' in (String ch whole, frac)
  end.

Definition decimal_float (s : string) : exc Q :=
  let bad := Raise ("ValueError: could not convert string to float: " ++ s)
               %string in
  let '(negative, body) :=
    match s with
    | String "-"%char s' => (true, s')
    | _ => (false, s)
    end in
  let '(whole, frac) := split_at_point body in
  match unsigned_decimal whole, frac with
  | Some w, None => Ok (if negative then - inject_Z w else inject_Z w)
  | Some w, Some f =>
      match digits_value f 0 with
      | Some fv =>
          let v := inject_Z w
                   + inject_Z fv / inject_Z (10 ^ Z.of_nat (String.length f)) in
          Ok (Qred (if negative then - v else v))
      | None => bad
      end
  | None, _ => bad
  end.

Definition decimal_builtins : PyBuiltins :=
  {| int_of_string := decimal_int; float_of_string := decimal_float |}.

(** One row of the [events] table made by [create_table]. *)
Record event : Type := {
  ev_event_id : Z;
  ev_timestamp : Z;
  ev_nanoseconds : Z;
  ev_ext_timestamp : Z;
  ev_pulseheights : list Z;
  ev_integrals : list Z;
  ev_n1 : Q;
  ev_n2 : Q;
  ev_n3 : Q;
  ev_n4 : Q;
  ev_t1 : Q;
  ev_t2 : Q;
  ev_t3 : Q;
  ev_t4 : Q;
  ev_t_trigger : Q
}.

(** [read_line_and_store_event]: the returned time stamp and the table
    after the call.  The table is the list of its rows, [len(table)] their
    number, [table.append] adds one row at the end. *)
Definition read_line_and_store_event {py : PyBuiltins} (line : list string)
  (table : list event) : exc (Q * list event) :=
  first ← py_index line 0;
  match first with
  | EmptyString => Raise "IndexError: string index out of range"
  | String ch _ =>
      if Ascii.eqb ch "#" then Ok (0, table) else
      match line with
      | [date; time_str; timestamp; nanoseconds; ph1; ph2; ph3; ph4; int1;
         int2; int3; int4; n1; n2; n3; n4; t1; t2; t3; t4; t_trigger] =>
          let event_id := Z.of_nat (length table) in
          timestamp ← int_of_string timestamp;
          nanoseconds ← int_of_string nanoseconds;
          let ext_timestamp := (timestamp * 1000000000 + nanoseconds)%Z in
          ph1 ← int_of_string ph1;
          ph2 ← int_of_string ph2;
          ph3 ← int_of_string ph3;
          ph4 ← int_of_string ph4;
          int1 ← int_of_string int1;
          int2 ← int_of_string int2;
          int3 ← int_of_string int3;
          int4 ← int_of_string int4;
          n1 ← float_of_string n1;
          n2 ← float_of_string n2;
          n3 ← float_of_string n3;
          n4 ← float_of_string n4;
          t1 ← float_of_string t1;
          t2 ← float_of_string t2;
          t3 ← float_of_string t3;
          t4 ← float_of_string t4;
          t_trigger ← float_of_string t_trigger;
          Ok (inject_Z timestamp,
              table ++ [{| ev_event_id := event_id;
                           ev_timestamp := timestamp;
                           ev_nanoseconds := nanoseconds;
                           ev_ext_timestamp := ext_timestamp;
                           ev_pulseheights := [ph1; ph2; ph3; ph4];
                           ev_integrals := [int1; int2; int3; int4];
                           ev_n1 := n1; ev_n2 := n2; ev_n3 := n3;
                           ev_n4 := n4; ev_t1 := t1; ev_t2 := t2;
                           ev_t3 := t3; ev_t4 := t4;
                           ev_t_trigger := t_trigger |}])
      | _ => Raise "ValueError: wrong number of values to unpack"
      end
  end.

(** The event loop of [download_data], [for line in reader], without its
    progress bar: the table after all lines are stored. *)
Definition download_data_event_loop {py : PyBuiltins}
  (reader : list (list string)) (table : list event) : exc (list event) :=
  exc_foldM (fun tbl line =>
               r ← read_line_and_store_event line tbl; Ok (snd r))
            reader table.

(** ['data%d.h5' % idx] *)
Definition numbered_path (idx : Z) : string :=
  ("data" ++ pretty idx ++ ".h5")%string.

(** The search of [_first_available_numbered_path] from [idx] on, for at
    most [fuel] candidates; [existing] holds the paths for which
    [os.path.exists] answers true. *)
Fixpoint first_available_from (existing : gset string) (fuel : nat)
  (idx : Z) : option string :=
  match fuel with
  | O => None
  | S fuel' =>
      if bool_decide (numbered_path idx ∈ existing)
      then first_available_from existing fuel' (idx + 1)
      else Some (numbered_path idx)
  end.

(** [_first_available_numbered_path]: [itertools.count(start=1)] is
    unbounded; one candidate more than there are existing paths is
    enough. *)
Definition first_available_numbered_path (existing : gset string)
  : option string :=
  first_available_from existing (S (size existing)) 1.

(** ** corsika/qsub.py *)

Record CorsikaBatch : Type := {
  cb_energy : Z;
  cb_particle : Z;
  cb_queue : string;
  cb_seed1 : option Z;
  cb_seed2 : option Z;
  cb_rundir : option string
}.

(** [taken_seeds]: the two directory listings, chained. *)
Definition CorsikaBatch_taken_seeds (datadir tempdir : list string)
  : list string :=
  datadir ++ tempdir.

(** ["{seed1}_{seed2}".format(...)] *)
Definition seed_name (seed1 seed2 : Z) : string :=
  (pretty seed1 ++ "_" ++ pretty seed2)%string.

(** [gen_random_seeds]; [seed1] and [seed2] are the two values drawn by
    [random.randint(1, 900000000)].  The [else] branch calls
    [self.get_random_seeds], a method the class does not have. *)
Definition CorsikaBatch_gen_random_seeds (self : CorsikaBatch)
  (taken : list string) (seed1 seed2 : Z) : exc CorsikaBatch :=
  let seed := seed_name seed1 seed2 in
  if negb (bool_decide (seed ∈ taken)) then
    Ok {| cb_energy := cb_energy self;
          cb_particle := cb_particle self;
          cb_queue := cb_queue self;
          cb_seed1 := Some seed1;
          cb_seed2 := Some seed2;
          cb_rundir := Some (seed ++ "/")%string |}
  else
    Raise "AttributeError: 'CorsikaBatch' object has no attribute 'get_random_seeds'".

(** ** Vocabulary for the further properties *)

(** The stations of a cluster, none before the first [_add_station]. *)
Definition stations_of (c : BaseCluster) : list Station :=
  default [] (BaseCluster_stations c).

(** A cluster built the way the subclasses do it: [_add_station] called
    once for each [((position, angle), detectors)]. *)
Definition add_stations (c : BaseCluster)
  (specs : list (Q * Q * Q * list (Q * Q * string))) : exc BaseCluster :=
  exc_foldM (fun c spec =>
               BaseCluster__add_station c (fst (fst spec)) (snd (fst spec))
                 (snd spec))
            specs c.

(** Whether the square query of a detector selects any row of the table. *)
Definition is_hit {libm : Libm} (c : BaseCluster) (s : Station)
  (table : list row) (d : Detector) : bool :=
  match GroundParticlesSimulation_selected c s d table with
  | [] => false
  | _ :: _ => true
  end.

(** The arrival times of rows after the transport delays are added, row by
    row. *)
Definition corrected_times (rows : list row) (transporttimes : list Q)
  : list Q :=
  map (fun p => fst p + snd p) (combine (map row_t rows) transporttimes).

(** A line of the CSV download, as [csv.reader] splits it, and a comment
    line. *)
Definition event_line : list string :=
  ["2013-09-01"; "00:00:01"; "1377993601"; "123456789";
   "100"; "200"; "300"; "400"; "1000"; "2000"; "3000"; "4000";
   "1.5"; "0"; "2.25"; "0"; "10.5"; "-999"; "12.5"; "-999"; "11.5"]%string.

Definition comment_line : list string := ["# date"; "time"]%string.

(** Strings made of decimal digits only. *)
Fixpoint all_digits (s : string) : bool :=
  match s with
  | EmptyString => true
  | String ch s' =>
      match digit_of_ascii ch with
      | Some _ => all_digits s'
      | None => false
      end
  end.

(** A batch as [CorsikaBatch.__init__] leaves it for a proton of 10^7
    GeV. *)
Definition fresh_batch : CorsikaBatch :=
  {| cb_energy := 7; cb_particle := 14; cb_queue := "stbcq";
     cb_seed1 := None; cb_seed2 := None; cb_rundir := None |}.

(** ** Geometry: the chain Detector, Station, Cluster *)

Section GeometryFacts.
Context {libm : Libm}.

Lemma Station_pose_unfold (c : BaseCluster) (s : Station) :
  Station_get_xyalpha_coordinates c s =
  (BaseCluster_x c
     + (fst (Station_position s) * cos (BaseCluster_alpha c)
        - snd (Station_position s) * sin (BaseCluster_alpha c)),
   BaseCluster_y c
     + (fst (Station_position s) * sin (BaseCluster_alpha c)
        + snd (Station_position s) * cos (BaseCluster_alpha c)),
   BaseCluster_alpha c + Station_angle s).
Proof.
  unfold Station_get_xyalpha_coordinates,
    BaseCluster_get_xyalpha_coordinates.
  destruct (Station_position s) as [sx sy]. reflexivity.
Qed.

Lemma Detector_centre_unfold (c : BaseCluster) (s : Station) (d : Detector) :
  Detector_get_xy_coordinates c s d =
  (fst (fst (Station_get_xyalpha_coordinates c s))
     + (Detector_x d * cos (snd (Station_get_xyalpha_coordinates c s))
        - Detector_y d * sin (snd (Station_get_xyalpha_coordinates c s))),
   snd (fst (Station_get_xyalpha_coordinates c s))
     + (Detector_x d * sin (snd (Station_get_xyalpha_coordinates c s))
        + Detector_y d * cos (snd (Station_get_xyalpha_coordinates c s)))).
Proof.
  unfold Detector_get_xy_coordinates.
  destruct (Station_get_xyalpha_coordinates c s) as [[X Y] a]. reflexivity.
Qed.

(** C9. The absolute centre of a detector is its station's absolute
    position plus the detector's local offset rotated by the station's
    absolute rotation; the station's absolute pose is the cluster's
    position plus the station's offset rotated by the cluster's angle, with
    the two angles added.  Each level applies the composition rule once,
    which gives the closed form in the cluster pose, the station's offset
    and angle, and the detector's offset. *)
Theorem detector_centre_composes_station_and_cluster_pose
  (c : BaseCluster) (s : Station) (d : Detector) :
  Station_get_xyalpha_coordinates c s
    = compose_pose (BaseCluster_get_xyalpha_coordinates c)
                   (Station_position s) (Station_angle s)
  /\ Detector_get_xy_coordinates c s d
     = pose_position
         (compose_pose (Station_get_xyalpha_coordinates c s)
                       (Detector_x d, Detector_y d) 0)
  /\ Detector_get_xy_coordinates c s d
     = (BaseCluster_x c
          + (fst (Station_position s) * cos (BaseCluster_alpha c)
             - snd (Station_position s) * sin (BaseCluster_alpha c))
          + (Detector_x d * cos (BaseCluster_alpha c + Station_angle s)
             - Detector_y d * sin (BaseCluster_alpha c + Station_angle s)),
        BaseCluster_y c
          + (fst (Station_position s) * sin (BaseCluster_alpha c)
             + snd (Station_position s) * cos (BaseCluster_alpha c))
          + (Detector_x d * sin (BaseCluster_alpha c + Station_angle s)
             + Detector_y d * cos (BaseCluster_alpha c + Station_angle s))).
Proof.
  rewrite Detector_centre_unfold, Station_pose_unfold.
  destruct c, s, d; repeat split.
Qed.

(** C10. [_prepare_cluster_for_shower x y alpha] leaves the cluster at the
    absolute pose [(-x', -y', -alpha)], where [(x', y')] is [(x, y)]
    rotated by [-alpha]; the stations, and with them every stored station
    and detector offset, are the ones the cluster had; and the core, the
    point at offset [(x, y)] from the cluster centre, lies at the origin of
    the re-posed geometry. *)
Theorem prepare_cluster_puts_core_at_origin (cluster : BaseCluster)
  (x y alpha : Q) :
  let cluster' :=
    GroundParticlesSimulation__prepare_cluster_for_shower cluster x y alpha in
  let p := rotate (- alpha) (x, y) in
  BaseCluster_get_xyalpha_coordinates cluster' = (- fst p, - snd p, - alpha)
  /\ BaseCluster_stations cluster' = BaseCluster_stations cluster
  /\ fst (fst (compose_pose (BaseCluster_get_xyalpha_coordinates cluster')
                            (x, y) 0)) == 0
  /\ snd (fst (compose_pose (BaseCluster_get_xyalpha_coordinates cluster')
                            (x, y) 0)) == 0.
Proof.
  intros cluster' p. subst cluster' p. cbn. repeat split; ring.
Qed.
End GeometryFacts.

(** ** The shower azimuth *)

Lemma pi_positive : 0 < pi.
Proof. reflexivity. Qed.

Lemma Qle_bool_false (a b : Q) : Qle_bool a b = false <-> b < a.
Proof.
  split; intros H.
  - apply Qnot_le_lt. intros Hle. apply Qle_bool_iff in Hle. congruence.
  - destruct (Qle_bool a b) eqn:E; [|reflexivity].
    apply Qle_bool_iff in E. lra.
Qed.

(** C8. For [alpha] and the source azimuth both within [[-pi, pi]], the
    single correction step of [generate_shower_parameters] leaves the shower
    azimuth in [(-pi, pi]]; the corners [alpha = azimuth = pi] and
    [alpha = azimuth = -pi] are within the hypotheses. *)
Theorem shower_azimuth_in_half_open_turn (alpha azimuth : Q) :
  - pi <= alpha <= pi ->
  - pi <= azimuth <= pi ->
  - pi < shower_azimuth alpha azimuth /\ shower_azimuth alpha azimuth <= pi.
Proof.
  intros [Ha1 Ha2] [Hz1 Hz2]. unfold shower_azimuth.
  pose proof pi_positive as Hpi. revert Ha1 Ha2 Hz1 Hz2 Hpi.
  generalize pi. intros p Ha1 Ha2 Hz1 Hz2 Hpi.
  destruct (Qle_bool (alpha + azimuth) p) eqn:E1; cbn [negb].
  - apply Qle_bool_iff in E1.
    destruct (Qle_bool (alpha + azimuth) (- p)) eqn:E2.
    + apply Qle_bool_iff in E2. split; lra.
    + apply Qle_bool_false in E2. split; lra.
  - apply Qle_bool_false in E1. split; lra.
Qed.

Lemma azimuth_of_pi_and_pi_is_wrapped :
  (- pi <= pi <= pi)
  /\ - pi < shower_azimuth pi pi
  /\ shower_azimuth pi pi <= pi.
Proof.
  assert (H : - pi <= pi <= pi) by (split; apply Qle_bool_iff; reflexivity).
  split; [exact H|].
  exact (shower_azimuth_in_half_open_turn pi pi H H).
Defined.

Lemma shower_azimuth_corners :
  shower_azimuth pi pi == 0 /\ shower_azimuth (- pi) (- pi) == 0.
Proof. split; reflexivity. Qed.

(** In the generator: the yielded azimuth is the normalised sum, the time
    stamp is [(10^9 + i) * 10^9], and the cluster is re-posed with the core
    offset and the drawn [alpha]. *)
Lemma generate_shower_yields {libm : Libm} (header : event_header)
  (ending : event_end) (cluster : BaseCluster) (i : nat) (dr : draws) :
  let x := sqrt (draw_r2 dr) * cos (draw_phi dr) in
  let y := sqrt (draw_r2 dr) * sin (draw_phi dr) in
  generate_shower header ending cluster i dr
  = ({| sp_ext_timestamp := ((1000000000 + Z.of_nat i) * 1000000000)%Z;
        sp_core_pos := (x, y);
        sp_azimuth := shower_azimuth (draw_alpha dr) (header_azimuth header);
        sp_zenith := header_zenith header;
        sp_size := end_n_electrons_levels ending;
        sp_energy := header_energy header;
        sp_particle := header_particle header |},
     GroundParticlesSimulation__prepare_cluster_for_shower cluster x y
       (draw_alpha dr)).
Proof. reflexivity. Qed.

Lemma generate_shower_parameters_length {libm : Libm} (header : event_header)
  (ending : event_end) (rng : nat -> draws) (cluster : BaseCluster)
  (N : nat) :
  length (GroundParticlesSimulation_generate_shower_parameters
            header ending rng cluster N) = N.
Proof.
  unfold GroundParticlesSimulation_generate_shower_parameters.
  generalize 0%nat. revert cluster.
  induction N as [|N IH]; intros cluster i; cbn; [reflexivity|].
  rewrite IH. reflexivity.
Qed.

(** ** The trigger *)

Lemma sum_of_hits (l : list observables) (acc : Z) :
  fold_left (fun a b => (a + Z.b2z b)%Z) (map (fun _ : observables => true) l)
            acc
  = (acc + Z.of_nat (length l))%Z.
Proof.
  revert acc. induction l as [|o l IH]; intros acc; cbn [map fold_left length].
  - lia.
  - rewrite IH. cbn [Z.b2z]. lia.
Qed.

Lemma simulate_trigger_counts (detector_observables : list observables) :
  GroundParticlesSimulation_simulate_trigger detector_observables
  = (2 <=? Z.of_nat (detectors_with_particles detector_observables))%Z.
Proof.
  unfold GroundParticlesSimulation_simulate_trigger, detectors_with_particles.
  rewrite sum_of_hits, Z.add_0_l.
  destruct (2 <=? _)%Z; reflexivity.
Qed.

(** C5. [simulate_trigger] answers [True] exactly when at least two of the
    detector observables have [n > 0], and [False] exactly when fewer than
    two have; only the number of such detectors enters, not which they
    are. *)
Theorem simulate_trigger_iff_two_detectors_hit
  (detector_observables : list observables) :
  (GroundParticlesSimulation_simulate_trigger detector_observables = true
   <-> (2 <= detectors_with_particles detector_observables)%nat)
  /\ (GroundParticlesSimulation_simulate_trigger detector_observables = false
      <-> (detectors_with_particles detector_observables < 2)%nat).
Proof.
  rewrite simulate_trigger_counts. split.
  - rewrite Z.leb_le. lia.
  - rewrite Z.leb_gt. lia.
Qed.

Lemma simulate_trigger_two_of_four :
  GroundParticlesSimulation_simulate_trigger
    [ {| obs_n := 0; obs_t := -999 |}; {| obs_n := 3; obs_t := 12 |};
      {| obs_n := 0; obs_t := -999 |}; {| obs_n := 1; obs_t := 7 |} ] = true.
Proof.
  apply (simulate_trigger_iff_two_detectors_hit
           [ {| obs_n := 0; obs_t := -999 |}; {| obs_n := 3; obs_t := 12 |};
             {| obs_n := 0; obs_t := -999 |}; {| obs_n := 1; obs_t := 7 |} ]).
  vm_compute. lia.
Defined.

(** Which detectors were hit is irrelevant: any reordering of the
    observables gives the same answer. *)
Lemma simulate_trigger_permutation (l l' : list observables) :
  Permutation l l' ->
  GroundParticlesSimulation_simulate_trigger l
  = GroundParticlesSimulation_simulate_trigger l'.
Proof.
  intros HP. rewrite !simulate_trigger_counts.
  unfold detectors_with_particles.
  assert (H : length (List.filter (fun o => negb (Qle_bool (obs_n o) 0)) l)
              = length (List.filter (fun o => negb (Qle_bool (obs_n o) 0)) l')).
  { induction HP; cbn [List.filter].
    - reflexivity.
    - destruct (negb _); cbn [length]; congruence.
    - do 2 destruct (negb _); reflexivity.
    - congruence. }
  rewrite H. reflexivity.
Qed.

(** Every count of hit detectors among four. *)
Example simulate_trigger_by_count :
  let hit := {| obs_n := 2; obs_t := 5 |} in
  let miss := no_particles in
  GroundParticlesSimulation_simulate_trigger [miss; miss; miss; miss] = false
  /\ GroundParticlesSimulation_simulate_trigger [miss; miss; hit; miss] = false
  /\ GroundParticlesSimulation_simulate_trigger [hit; miss; miss; hit] = true
  /\ GroundParticlesSimulation_simulate_trigger [hit; hit; miss; hit] = true
  /\ GroundParticlesSimulation_simulate_trigger [hit; hit; hit; hit] = true.
Proof. repeat split. Qed.

(** ** Sorting the arrival times *)

Lemma insert_sorted_perm (v : Q) (l : list Q) :
  Permutation (insert_sorted v l) (v :: l).
Proof.
  induction l as [|w l IH]; cbn [insert_sorted].
  - reflexivity.
  - destruct (Qle_bool v w).
    + reflexivity.
    + rewrite IH. apply perm_swap.
Qed.

Lemma sorted_perm (l : list Q) : Permutation (sorted l) l.
Proof.
  induction l as [|v l IH]; cbn [sorted].
  - reflexivity.
  - rewrite insert_sorted_perm. apply perm_skip, IH.
Qed.

Lemma insert_sorted_ordered (v : Q) (l : list Q) :
  StronglySorted Qle l -> StronglySorted Qle (insert_sorted v l).
Proof.
  induction 1 as [|w l Hs IH Hall]; cbn [insert_sorted].
  - repeat constructor.
  - destruct (Qle_bool v w) eqn:E.
    + apply Qle_bool_iff in E. constructor.
      * constructor; assumption.
      * constructor; [assumption|].
        eapply Forall_impl; [exact Hall|].
        intros z Hz. cbn in Hz. lra.
    + apply Qle_bool_false in E. constructor; [assumption|].
      rewrite (insert_sorted_perm v l). constructor; [lra | assumption].
Qed.

Lemma sorted_ordered (l : list Q) : StronglySorted Qle (sorted l).
Proof.
  induction l as [|v l IH]; cbn [sorted].
  - constructor.
  - apply insert_sorted_ordered, IH.
Qed.

(** With at least two elements, index 1 of the sorted list is the second
    smallest: one element is no larger and all the others are no smaller. *)
Lemma sorted_second (l : list Q) :
  (2 <= length l)%nat ->
  exists first second later,
    sorted l = first :: second :: later
    /\ Permutation l (first :: second :: later)
    /\ first <= second
    /\ Forall (Qle second) later.
Proof.
  intros Hlen.
  pose proof (sorted_perm l) as HP.
  pose proof (sorted_ordered l) as HS.
  pose proof (Permutation_length HP) as HL.
  destruct (sorted l) as [|a [|b rest]]; cbn [length] in HL; try lia.
  exists a, b, rest. repeat split.
  - symmetry. exact HP.
  - inversion HS as [|? ? _ Hall]; subst. inversion Hall; subst. assumption.
  - inversion HS as [|? ? Hs' _]; subst. inversion Hs'; subst. assumption.
Qed.

(** ** The GPS time stamp *)

(** [int] on a float drops the fraction: floor for a non-negative value,
    ceiling for a non-positive one. *)
Lemma py_int_nonneg (v : Q) : 0 <= v -> py_int v = Qfloor v.
Proof.
  destruct v as [n d]. unfold Qle, py_int, Qfloor. cbn.
  intros H. apply Z.quot_div_nonneg; lia.
Qed.

Lemma py_int_nonpos (v : Q) : v <= 0 -> py_int v = Qceiling v.
Proof.
  destruct v as [n d]. unfold Qle, py_int, Qceiling, Qfloor. cbn.
  intros H.
  rewrite <- (Z.opp_involutive n) at 1.
  rewrite Z.quot_opp_l by lia.
  rewrite Z.quot_div_nonneg by lia. reflexivity.
Qed.

Lemma arrival_times_filtered (so : gmap string Q) (ids : list Z) :
  let hit := fun id =>
    negb (Qle_bool (default (-1) (so !! key "n" id)) 0) in
  (forall id, In id (List.filter hit ids) -> is_Some (so !! key "t" id)) ->
  arrival_times so ids
  = Ok (map (fun id => default 0 (so !! key "t" id)) (List.filter hit ids)).
Proof.
  intros hit. induction ids as [|id ids IH]; intros Hwf.
  - reflexivity.
  - cbn [arrival_times List.filter] in *. fold (hit id) in *.
    destruct (hit id) eqn:E.
    + destruct (Hwf id (or_introl eq_refl)) as [t Ht].
      rewrite Ht, IH.
      * cbn [map]. rewrite Ht. reflexivity.
      * intros id' Hin. apply Hwf. right. exact Hin.
    + apply IH. exact Hwf.
Qed.

Lemma arrival_times_qualifying (so : gmap string Q) :
  (forall id, In id (qualifying so) -> is_Some (so !! key "t" id)) ->
  arrival_times so [1; 2; 3; 4]%Z = Ok (qualifying_times so).
Proof. intros Hwf. apply (arrival_times_filtered so [1; 2; 3; 4]%Z Hwf). Qed.

Lemma qualifying_times_length (so : gmap string Q) :
  length (qualifying_times so) = length (qualifying so).
Proof. unfold qualifying_times. apply length_map. Qed.

Lemma simulate_gps_quiet (so : gmap string Q) (shower : shower_parameters)
  (station : Station) (u : Q) :
  (forall id, In id (qualifying so) -> is_Some (so !! key "t" id)) ->
  (length (qualifying so) < 2)%nat ->
  GroundParticlesSimulation_simulate_gps so shower station u = Ok so.
Proof.
  intros Hwf Hlen. unfold GroundParticlesSimulation_simulate_gps.
  rewrite (arrival_times_qualifying so Hwf).
  cbn [mbind exc_mbind exc_bind]. rewrite qualifying_times_length.
  destruct (1 <? length (qualifying so))%nat eqn:E; [|reflexivity].
  apply Nat.ltb_lt in E. lia.
Qed.

Lemma simulate_gps_stamps (so : gmap string Q) (shower : shower_parameters)
  (station : Station) (u : Q) :
  (forall id, In id (qualifying so) -> is_Some (so !! key "t" id)) ->
  (2 <= length (qualifying so))%nat ->
  exists first trigger_time later,
    sorted (qualifying_times so) = first :: trigger_time :: later
    /\ Permutation (qualifying_times so) (first :: trigger_time :: later)
    /\ first <= trigger_time
    /\ Forall (Qle trigger_time) later
    /\ GroundParticlesSimulation_simulate_gps so shower station u
       = Ok (with_gps_timestamp so
               (sp_ext_timestamp shower
                + py_int (trigger_time + Station_gps_offset station + u))%Z).
Proof.
  intros Hwf Hlen.
  destruct (sorted_second (qualifying_times so))
    as (a & b & rest & Hs & HP & Hab & Hall).
  { rewrite qualifying_times_length. exact Hlen. }
  exists a, b, rest. repeat split; try assumption.
  unfold GroundParticlesSimulation_simulate_gps.
  rewrite (arrival_times_qualifying so Hwf).
  cbn [mbind exc_mbind exc_bind]. rewrite qualifying_times_length.
  destruct (1 <? length (qualifying so))%nat eqn:E.
  - rewrite Hs. reflexivity.
  - apply Nat.ltb_ge in E. lia.
Qed.

(** C4. On station observables that hold a [t] for each detector reporting
    [n > 0]: with fewer than two such detectors [simulate_gps] returns the
    observables as they were, and raises nothing; with two or more it adds
    the time stamp fields computed from the trigger time at index 1 of the
    ascending arrival times, which is the second smallest of them: one
    arrival time is no larger and all the others are no smaller. *)
Theorem simulate_gps_quiet_or_second_smallest (so : gmap string Q)
  (shower : shower_parameters) (station : Station) (u : Q) :
  (forall id, In id (qualifying so) -> is_Some (so !! key "t" id)) ->
  ((length (qualifying so) < 2)%nat ->
   GroundParticlesSimulation_simulate_gps so shower station u = Ok so)
  /\ ((2 <= length (qualifying so))%nat ->
      exists first trigger_time later,
        sorted (qualifying_times so) = first :: trigger_time :: later
        /\ Permutation (qualifying_times so) (first :: trigger_time :: later)
        /\ first <= trigger_time
        /\ Forall (Qle trigger_time) later
        /\ GroundParticlesSimulation_simulate_gps so shower station u
           = Ok (with_gps_timestamp so
                   (sp_ext_timestamp shower
                    + py_int (trigger_time + Station_gps_offset station
                              + u))%Z)).
Proof.
  intros Hwf. split.
  - apply simulate_gps_quiet, Hwf.
  - apply simulate_gps_stamps, Hwf.
Qed.

Lemma two_hit_observables_have_times :
  forall id, In id (qualifying two_hit_observables) ->
             is_Some (two_hit_observables !! key "t" id).
Proof.
  intros id Hin. vm_compute in Hin.
  destruct Hin as [<-|[<-|[]]]; eexists; vm_compute; reflexivity.
Defined.

Lemma simulate_gps_on_spec_scenario :
  (forall id, In id (qualifying two_hit_observables) ->
              is_Some (two_hit_observables !! key "t" id))
  /\ (2 <= length (qualifying two_hit_observables))%nat
  /\ exists first trigger_time later,
       sorted (qualifying_times two_hit_observables)
       = first :: trigger_time :: later
       /\ Permutation (qualifying_times two_hit_observables)
                      (first :: trigger_time :: later)
       /\ first <= trigger_time
       /\ Forall (Qle trigger_time) later
       /\ GroundParticlesSimulation_simulate_gps two_hit_observables
            first_shower (station_with_gps_offset 0) 0
          = Ok (with_gps_timestamp two_hit_observables
                  (sp_ext_timestamp first_shower
                   + py_int (trigger_time
                             + Station_gps_offset (station_with_gps_offset 0)
                             + 0))%Z).
Proof.
  split; [exact two_hit_observables_have_times|].
  split; [vm_compute; lia|].
  apply (proj2 (simulate_gps_quiet_or_second_smallest two_hit_observables
                  first_shower (station_with_gps_offset 0) 0
                  two_hit_observables_have_times)).
  vm_compute. lia.
Defined.

(** The scenario of the specification, run: the trigger time is 5. *)
Example simulate_gps_spec_scenario_runs :
  qualifying_times two_hit_observables = [3; 5]
  /\ sorted (qualifying_times two_hit_observables) !! 1%nat = Some 5
  /\ GroundParticlesSimulation_simulate_gps two_hit_observables first_shower
       (station_with_gps_offset 0) 0
     = Ok (with_gps_timestamp two_hit_observables 1000000000000000005).
Proof. repeat split; vm_compute; reflexivity. Qed.

(** One hit detector only: nothing is added. *)
Example simulate_gps_single_hit :
  let so : gmap string Q :=
    <["n1" := 1]> (<["t1" := 3]> (<["n2" := 0]> (<["t2" := -999]> ∅))) in
  GroundParticlesSimulation_simulate_gps so first_shower
    (station_with_gps_offset 0) 0 = Ok so.
Proof. vm_compute. reflexivity. Qed.

(** C7 as the code has it.  Whenever at least two detectors qualify, the
    absolute time stamp is the shower's time stamp plus the sum of trigger
    time, station GPS offset and GPS uncertainty draw converted by [int],
    that is with its fraction dropped; the fields [timestamp] and
    [nanoseconds] are its quotient and remainder by 10^9, and they add up
    to it again. *)
Theorem gps_timestamp_truncates_and_splits (so : gmap string Q)
  (shower : shower_parameters) (station : Station) (u : Q) :
  (forall id, In id (qualifying so) -> is_Some (so !! key "t" id)) ->
  (2 <= length (qualifying so))%nat ->
  exists trigger_time ext_timestamp so',
    sorted (qualifying_times so) !! 1%nat = Some trigger_time
    /\ ext_timestamp
       = (sp_ext_timestamp shower
          + py_int (trigger_time + Station_gps_offset station + u))%Z
    /\ GroundParticlesSimulation_simulate_gps so shower station u = Ok so'
    /\ so' !! "ext_timestamp" = Some (inject_Z ext_timestamp)
    /\ so' !! "timestamp" = Some (inject_Z (ext_timestamp / 1000000000))
    /\ so' !! "nanoseconds" = Some (inject_Z (ext_timestamp mod 1000000000))
    /\ (ext_timestamp / 1000000000 * 1000000000
        + ext_timestamp mod 1000000000 = ext_timestamp)%Z
    /\ (0 <= ext_timestamp mod 1000000000 < 1000000000)%Z.
Proof.
  intros Hwf Hlen.
  destruct (simulate_gps_stamps so shower station u Hwf Hlen)
    as (a & b & rest & Hs & _ & _ & _ & Hrun).
  exists b. eexists. eexists. split; [rewrite Hs; reflexivity|].
  split; [reflexivity|]. split; [exact Hrun|].
  unfold with_gps_timestamp, long_1e9.
  repeat split.
  - rewrite lookup_insert_ne by discriminate.
    rewrite lookup_insert_ne by discriminate.
    apply lookup_insert_eq.
  - rewrite lookup_insert_ne by discriminate. apply lookup_insert_eq.
  - apply lookup_insert_eq.
  - pose proof (Z.div_mod (sp_ext_timestamp shower
        + py_int (b + Station_gps_offset station + u)) 1000000000). lia.
  - apply Z.mod_pos_bound. lia.
  - apply Z.mod_pos_bound. lia.
Qed.

Lemma gps_timestamp_on_spec_scenario :
  (forall id, In id (qualifying two_hit_observables) ->
              is_Some (two_hit_observables !! key "t" id))
  /\ (2 <= length (qualifying two_hit_observables))%nat
  /\ exists trigger_time ext_timestamp so',
       sorted (qualifying_times two_hit_observables) !! 1%nat
       = Some trigger_time
       /\ ext_timestamp
          = (sp_ext_timestamp first_shower
             + py_int (trigger_time
                       + Station_gps_offset (station_with_gps_offset (7 # 10))
                       + 0))%Z
       /\ GroundParticlesSimulation_simulate_gps two_hit_observables
            first_shower (station_with_gps_offset (7 # 10)) 0 = Ok so'
       /\ so' !! "ext_timestamp" = Some (inject_Z ext_timestamp)
       /\ so' !! "timestamp" = Some (inject_Z (ext_timestamp / 1000000000))
       /\ so' !! "nanoseconds"
          = Some (inject_Z (ext_timestamp mod 1000000000))
       /\ (ext_timestamp / 1000000000 * 1000000000
           + ext_timestamp mod 1000000000 = ext_timestamp)%Z
       /\ (0 <= ext_timestamp mod 1000000000 < 1000000000)%Z.
Proof.
  split; [exact two_hit_observables_have_times|].
  assert (Hlen : (2 <= length (qualifying two_hit_observables))%nat)
    by (vm_compute; lia).
  split; [exact Hlen|].
  exact (gps_timestamp_truncates_and_splits two_hit_observables first_shower
           (station_with_gps_offset (7 # 10)) 0
           two_hit_observables_have_times Hlen).
Defined.

(** C7 as the specification words it fails: with arrival times 3 and 5, a
    GPS offset of 0.7 and no jitter, the sum is 5.7; the code adds
    [int(5.7) = 5] to the shower's time stamp, rounding would add 6. *)
Lemma gps_timestamp_is_not_rounded :
  exists so',
    GroundParticlesSimulation_simulate_gps two_hit_observables first_shower
      (station_with_gps_offset (7 # 10)) 0 = Ok so'
    /\ sorted (qualifying_times two_hit_observables) !! 1%nat = Some 5
    /\ so' !! "ext_timestamp" = Some (inject_Z 1000000000000000005)
    /\ spec_ext_timestamp first_shower (station_with_gps_offset (7 # 10)) 5 0
       = 1000000000000000006%Z
    /\ so' !! "ext_timestamp"
       <> Some (inject_Z (spec_ext_timestamp first_shower
                            (station_with_gps_offset (7 # 10)) 5 0)).
Proof.
  eexists. split; [vm_compute; reflexivity|].
  repeat split; try (vm_compute; reflexivity).
  vm_compute. discriminate.
Qed.

(** ** Detector orientation *)

Lemma add_detector_total (s : Station) (d : Q * Q * string) :
  Station__add_detector s d
  = Ok (with_detectors s
          (Some (match Station_detectors s with
                 | None => []
                 | Some l => l
                 end ++ [detector_of d]))).
Proof. destruct d as [[x y] o]. reflexivity. Qed.

Lemma add_detectors_total (detectors : list (Q * Q * string)) (s : Station) :
  exc_foldM Station__add_detector detectors s
  = Ok (with_detectors s
          match detectors with
          | [] => Station_detectors s
          | _ :: _ =>
              Some (match Station_detectors s with
                    | None => []
                    | Some l => l
                    end ++ map detector_of detectors)
          end).
Proof.
  revert s. induction detectors as [|[[x y] o] ds IH]; intros s.
  - destruct s; reflexivity.
  - cbn [exc_foldM]. rewrite add_detector_total.
    cbn [mbind exc_mbind exc_bind]. rewrite IH.
    unfold with_detectors. cbn.
    destruct ds as [|d' ds'].
    + reflexivity.
    + rewrite <- app_assoc. reflexivity.
Qed.

Lemma Station_init_total (station_id : Z) (position : Q * Q) (angle : Q)
  (detectors : list (Q * Q * string)) :
  Station_init station_id position angle detectors
  = Ok {| Station_station_id := station_id;
          Station_position := position;
          Station_angle := angle;
          Station_detectors :=
            match detectors with
            | [] => None
            | _ :: _ => Some (map detector_of detectors)
            end;
          Station_gps_offset := 0 |}.
Proof.
  unfold Station_init. rewrite add_detectors_total.
  destruct detectors; reflexivity.
Qed.

Section Orientation.
Context {libm : Libm}.

Lemma get_corners_unknown (c : BaseCluster) (s : Station) (d : Detector) :
  Detector_orientation d <> "UD" ->
  Detector_orientation d <> "LR" ->
  Detector_get_corners c s d
  = Raise ("Unknown detector orientation: " ++ Detector_orientation d).
Proof.
  intros HUD HLR. unfold Detector_get_corners.
  destruct (Station_get_xyalpha_coordinates c s) as [[X Y] a].
  apply String.eqb_neq in HUD, HLR. rewrite HUD, HLR. reflexivity.
Qed.

Lemma get_corners_known (c : BaseCluster) (s : Station) (d : Detector) :
  Detector_orientation d = "UD" \/ Detector_orientation d = "LR" ->
  exists p0 p1 p2 p3, Detector_get_corners c s d = Ok [p0; p1; p2; p3].
Proof.
  intros H. unfold Detector_get_corners.
  destruct (Station_get_xyalpha_coordinates c s) as [[X Y] a].
  destruct H as [-> | ->]; cbn; do 4 eexists; reflexivity.
Qed.

(** C6 as the code has it.  Building the geometry never raises, whatever
    the orientation strings: [_add_station] returns the cluster with one
    more station whose detectors store the orientations as given.  An
    orientation other than 'UD' and 'LR' raises "Unknown detector
    orientation" when [get_corners] is called on that detector, and no
    corners are returned for it; for 'UD' and 'LR' [get_corners] returns
    the four corners. *)
Theorem unknown_orientation_raises_in_get_corners (c : BaseCluster)
  (position : Q * Q) (angle : Q) (detectors : list (Q * Q * string))
  (s : Station) (d : Detector) :
  (exists st,
      BaseCluster__add_station c position angle detectors
      = Ok {| BaseCluster_x := BaseCluster_x c;
              BaseCluster_y := BaseCluster_y c;
              BaseCluster_alpha := BaseCluster_alpha c;
              BaseCluster_stations :=
                Some (match BaseCluster_stations c with
                      | None => []
                      | Some l => l
                      end ++ [st]) |}
      /\ Station_detectors st
         = match detectors with
           | [] => None
           | _ :: _ => Some (map detector_of detectors)
           end)
  /\ (Detector_orientation d <> "UD" ->
      Detector_orientation d <> "LR" ->
      Detector_get_corners c s d
      = Raise ("Unknown detector orientation: " ++ Detector_orientation d))
  /\ (Detector_orientation d = "UD" \/ Detector_orientation d = "LR" ->
      exists p0 p1 p2 p3, Detector_get_corners c s d = Ok [p0; p1; p2; p3]).
Proof.
  split; [|split].
  - unfold BaseCluster__add_station. rewrite Station_init_total.
    cbn [mbind exc_mbind exc_bind]. eexists. split; reflexivity.
  - apply get_corners_unknown.
  - apply get_corners_known.
Qed.
End Orientation.

Lemma corners_of_XX_detector_raise :
  Detector_orientation detector_XX <> "UD"
  /\ Detector_orientation detector_XX <> "LR"
  /\ Detector_get_corners (libm := libm_series)
       (cluster_of (make_station (0, 0) [detector_XX]))
       (make_station (0, 0) [detector_XX]) detector_XX
     = Raise "Unknown detector orientation: XX".
Proof.
  split; [discriminate|]. split; [discriminate|].
  apply (unknown_orientation_raises_in_get_corners (libm := libm_series)
           (cluster_of (make_station (0, 0) [detector_XX])) (0, 0) 0
           [(0, 0, "XX"%string)]
           (make_station (0, 0) [detector_XX]) detector_XX); discriminate.
Defined.

(** C6 as the specification words it fails: a cluster with a detector of
    orientation 'XX' is built without any exception; only the later call of
    [get_corners] raises, while [get_xy_coordinates] still answers. *)
Lemma unknown_orientation_accepted_at_construction :
  exists c s d,
    BaseCluster__add_station (BaseCluster_init (0, 0) 0) (0, 0) 0
      [(0, 0, "XX"%string)] = Ok c
    /\ ~ raises (BaseCluster__add_station (BaseCluster_init (0, 0) 0) (0, 0) 0
                   [(0, 0, "XX"%string)])
    /\ BaseCluster_stations c = Some [s]
    /\ Station_detectors s = Some [d]
    /\ Detector_orientation d = "XX"%string
    /\ Detector_get_xy_coordinates (libm := libm_series) c s d = (0, 0)
    /\ raises (Detector_get_corners (libm := libm_series) c s d).
Proof.
  do 3 eexists. split; [vm_compute; reflexivity|].
  repeat split; vm_compute; try reflexivity; tauto.
Qed.

(** ** What the queries select *)

Lemma eval_box_condition (x_lo x_hi y_lo y_hi : Q) (r : row) :
  eval_cond (box_condition x_lo x_hi y_lo y_hi) r = true
  <-> (format_f x_lo <= row_x r /\ row_x r <= format_f x_hi)
      /\ (format_f y_lo <= row_y r /\ row_y r <= format_f y_hi).
Proof.
  unfold box_condition. cbn [eval_cond eval_expr column_value].
  rewrite !andb_true_iff, !Qle_bool_iff. tauto.
Qed.

Lemma eval_with_particle_filter (q : cond) (r : row) :
  eval_cond (with_particle_filter q) r = true
  <-> eval_cond q r = true /\ id_in_query_range r.
Proof.
  unfold with_particle_filter, id_in_query_range.
  cbn [eval_cond eval_expr column_value].
  rewrite !andb_true_iff, !Qle_bool_iff.
  change 2 with (inject_Z 2). change 6 with (inject_Z 6).
  rewrite <- !Zle_Qle. tauto.
Qed.

Lemma Table_where_In (q : cond) (table : list row) (r : row) :
  In r (Table_where q table) <-> In r table /\ eval_cond q r = true.
Proof. unfold Table_where. apply filter_In. Qed.

Lemma id_in_query_range_b_spec (r : row) :
  id_in_query_range_b r = true <-> id_in_query_range r.
Proof.
  unfold id_in_query_range_b, id_in_query_range.
  rewrite andb_true_iff, !Z.leb_le. tauto.
Qed.

Lemma filter_filter_implied {A : Type} (p q : A -> bool) (l : list A) :
  (forall a, q a = true -> p a = true) ->
  List.filter q (List.filter p l) = List.filter q l.
Proof.
  intros Himp. induction l as [|a l IH]; cbn [List.filter].
  - reflexivity.
  - destruct (p a) eqn:Ep; cbn [List.filter].
    + rewrite IH. reflexivity.
    + destruct (q a) eqn:Eq.
      * rewrite (Himp a Eq) in Ep. discriminate.
      * exact IH.
Qed.

(** A filtered query sees only the rows whose id is between 2 and 6. *)
Lemma Table_where_particle_filter (q : cond) (table : list row) :
  Forall id_in_query_range (Table_where (with_particle_filter q) table)
  /\ Table_where (with_particle_filter q)
                 (List.filter id_in_query_range_b table)
     = Table_where (with_particle_filter q) table.
Proof.
  split.
  - apply List.Forall_forall. intros r Hin.
    apply Table_where_In in Hin. destruct Hin as [_ Hq].
    apply eval_with_particle_filter in Hq. tauto.
  - unfold Table_where. apply filter_filter_implied.
    intros r Hq. apply eval_with_particle_filter in Hq.
    apply id_in_query_range_b_spec. tauto.
Qed.

Section Selection.
Context {libm : Libm}.


Lemma DetectorSignalSimulation_selected_same_query (c : BaseCluster)
  (s : Station) (d : Detector) (table : list row) :
  DetectorSignalSimulation_selected c s d table
  = GroundParticlesSimulation_selected c s d table.
Proof. reflexivity. Qed.

Lemma GroundParticlesSimulation_query_filtered (c : BaseCluster)
  (s : Station) (d : Detector) :
  exists q, GroundParticlesSimulation_query c s d = with_particle_filter q.
Proof.
  unfold GroundParticlesSimulation_query.
  destruct (Detector_get_xy_coordinates c s d) as [x y].
  eexists. reflexivity.
Qed.

Lemma DetectorBoundarySimulation_query_filtered (c : BaseCluster)
  (s : Station) (d : Detector) (query : cond) :
  DetectorBoundarySimulation_query c s d = Ok query ->
  exists q, query = with_particle_filter q.
Proof.
  unfold DetectorBoundarySimulation_query.
  destruct (Detector_get_xy_coordinates c s d) as [x y].
  destruct (Detector_get_corners c s d) as [corners|msg];
    cbn [mbind exc_mbind exc_bind]; [|discriminate].
  destruct corners as [|c0 [|c1 [|c2 [|c3 rest]]]]; try discriminate.
  destruct (DetectorBoundarySimulation_get_line_boundary_eqs c0 c1 c2)
    as [[b11 line1] b12].
  destruct (DetectorBoundarySimulation_get_line_boundary_eqs c1 c2 c3)
    as [[b21 line2] b22].
  intros H. injection H as <-. eexists. reflexivity.
Qed.

(** The pre-filter of the polygon strategy is the same box with half-width
    0.6, with the same upper bound on [y]. *)
Lemma DetectorBoundarySimulation_selected_in_box (c : BaseCluster)
  (s : Station) (d : Detector) (table rows : list row) (r : row) :
  let x := fst (Detector_get_xy_coordinates c s d) in
  let y := snd (Detector_get_xy_coordinates c s d) in
  let b := 6 # 10 in
  DetectorBoundarySimulation_selected c s d table = Ok rows ->
  In r rows ->
  In r table
  /\ (format_f (x - b) <= row_x r /\ row_x r <= format_f (x + b))
  /\ (format_f (y - b) <= row_y r /\ row_y r <= format_f (x + b))
  /\ id_in_query_range r.
Proof.
  intros x y b. subst x y b.
  unfold DetectorBoundarySimulation_selected,
    DetectorBoundarySimulation_query.
  destruct (Detector_get_xy_coordinates c s d) as [x y]. cbn [fst snd].
  destruct (Detector_get_corners c s d) as [corners|msg];
    cbn [mbind exc_mbind exc_bind]; [|discriminate].
  destruct corners as [|c0 [|c1 [|c2 [|c3 rest]]]]; try discriminate.
  destruct (DetectorBoundarySimulation_get_line_boundary_eqs c0 c1 c2)
    as [[b11 line1] b12].
  destruct (DetectorBoundarySimulation_get_line_boundary_eqs c1 c2 c3)
    as [[b21 line2] b22].
  cbn [mbind exc_mbind exc_bind].
  intros H Hin. injection H as <-.
  apply Table_where_In in Hin. destruct Hin as [Hin Hq].
  apply eval_with_particle_filter in Hq. destruct Hq as [Hq Hid].
  cbn [eval_cond] in Hq. rewrite !andb_true_iff in Hq.
  destruct Hq as [[[[Hbox _] _] _] _].
  apply eval_box_condition in Hbox. tauto.
Qed.
End Selection.

Section ParticleFilter.
Context {libm : Libm}.

Lemma GroundParticlesSimulation_selected_filtered (c : BaseCluster)
  (s : Station) (d : Detector) (table : list row) :
  Forall id_in_query_range (GroundParticlesSimulation_selected c s d table)
  /\ GroundParticlesSimulation_selected c s d
       (List.filter id_in_query_range_b table)
     = GroundParticlesSimulation_selected c s d table.
Proof.
  unfold GroundParticlesSimulation_selected.
  destruct (GroundParticlesSimulation_query_filtered c s d) as [q ->].
  apply Table_where_particle_filter.
Qed.

Lemma DetectorBoundarySimulation_selected_filtered (c : BaseCluster)
  (s : Station) (d : Detector) (table : list row) :
  match DetectorBoundarySimulation_selected c s d table with
  | Ok rows => Forall id_in_query_range rows
  | Raise _ => True
  end
  /\ DetectorBoundarySimulation_selected c s d
       (List.filter id_in_query_range_b table)
     = DetectorBoundarySimulation_selected c s d table.
Proof.
  unfold DetectorBoundarySimulation_selected.
  destruct (DetectorBoundarySimulation_query c s d) as [query|msg] eqn:E;
    cbn [mbind exc_mbind exc_bind]; [|split; [exact I|reflexivity]].
  destruct (DetectorBoundarySimulation_query_filtered c s d query E)
    as [q ->].
  destruct (Table_where_particle_filter q table) as [H1 H2].
  split; [exact H1|]. rewrite H2. reflexivity.
Qed.

(** C2 as the code has it.  Under each of the three strategies every
    selected row has a particle id between 2 and 6, an interval that
    contains 4; and the observables computed from a table are those
    computed from its rows with such an id alone, so no other row
    contributes to [n] or [t]. *)
Theorem only_ids_2_to_6_are_selected (c : BaseCluster) (s : Station)
  (d : Detector) (table : list row)
  (simulate_detector_mips : list (Q * Q * Q) -> Q)
  (simulate_signal_transport_time : nat -> list Q) :
  let kept := List.filter id_in_query_range_b table in
  (Forall id_in_query_range (GroundParticlesSimulation_selected c s d table)
   /\ GroundParticlesSimulation_simulate_detector_response c s d table
        simulate_signal_transport_time
      = GroundParticlesSimulation_simulate_detector_response c s d kept
          simulate_signal_transport_time)
  /\ (match DetectorBoundarySimulation_selected c s d table with
      | Ok rows => Forall id_in_query_range rows
      | Raise _ => True
      end
      /\ DetectorBoundarySimulation_simulate_detector_response c s d table
           simulate_signal_transport_time
         = DetectorBoundarySimulation_simulate_detector_response c s d kept
             simulate_signal_transport_time)
  /\ (Forall id_in_query_range
        (DetectorSignalSimulation_selected c s d table)
      /\ DetectorSignalSimulation_simulate_detector_response c s d table
           simulate_detector_mips simulate_signal_transport_time
         = DetectorSignalSimulation_simulate_detector_response c s d kept
             simulate_detector_mips simulate_signal_transport_time).
Proof.
  intros kept. subst kept.
  destruct (GroundParticlesSimulation_selected_filtered c s d table)
    as [G1 G2].
  destruct (DetectorBoundarySimulation_selected_filtered c s d table)
    as [B1 B2].
  repeat split.
  - exact G1.
  - unfold GroundParticlesSimulation_simulate_detector_response.
    rewrite G2. reflexivity.
  - exact B1.
  - unfold DetectorBoundarySimulation_simulate_detector_response.
    rewrite B2. reflexivity.
  - rewrite DetectorSignalSimulation_selected_same_query. exact G1.
  - unfold DetectorSignalSimulation_simulate_detector_response.
    change (DetectorSignalSimulation_selected c s d)
      with (GroundParticlesSimulation_selected c s d).
    rewrite G2. reflexivity.
Qed.
End ParticleFilter.

(** ** The strategies run on detectors at rest

    The examples use clusters at pose [(0, 0, 0)] whose stations have angle
    0, so that the only values asked of the C library are [cos 0] and
    [sin 0]; the results hold for every [Libm]. *)

Section AtRest.
Context {libm : Libm}.

Lemma station_pose_at_rest (position : Q * Q) (detectors : list Detector) :
  Station_get_xyalpha_coordinates
    (cluster_of (make_station position detectors))
    (make_station position detectors)
  = (0 + (fst position * 1 - snd position * 0),
     0 + (fst position * 0 + snd position * 1), 0).
Proof.
  rewrite Station_pose_unfold. cbn. rewrite cos_0, sin_0. reflexivity.
Qed.

Ltac run_at_rest :=
  unfold GroundParticlesSimulation_simulate_detector_response,
    GroundParticlesSimulation_selected, GroundParticlesSimulation_query,
    DetectorSignalSimulation_selected, DetectorSignalSimulation_query,
    DetectorBoundarySimulation_selected, DetectorBoundarySimulation_query,
    Detector_get_corners;
  rewrite ?Detector_centre_unfold;
  unfold station_centre, station_north, station_east;
  rewrite !station_pose_at_rest;
  cbn [fst snd]; rewrite ?cos_0, ?sin_0;
  vm_compute; reflexivity.

(** C1 at a detector ten metres north of the origin, for a lepton exactly
    at the detector's centre [(0, 10)].  The row lies in the symmetric box
    of either half-width, yet no strategy selects it: each query bounds
    [y] from above by [x + detector_boundary], here 0.353553 or 0.6. *)
Theorem row_at_detector_centre_is_not_selected :
  let c := cluster_of station_north in
  let r := particle 0 10 2 in
  Detector_get_xy_coordinates c station_north detector_UD = (0, 10)
  /\ in_symmetric_box 0 10 (3535534 # 10000000) r = true
  /\ in_symmetric_box 0 10 (6 # 10) r = true
  /\ GroundParticlesSimulation_selected c station_north detector_UD [r]
     = []
  /\ DetectorBoundarySimulation_selected c station_north detector_UD [r]
     = Ok []
  /\ DetectorSignalSimulation_selected c station_north detector_UD [r]
     = []
  /\ GroundParticlesSimulation_simulate_detector_response
       c station_north detector_UD [r] no_transport_delay
     = Ok no_particles.
Proof. repeat split; run_at_rest. Qed.

(** The same slip the other way round: for a detector ten metres east of
    the origin the upper bound on [y] is 10.353553, and a lepton five
    metres north of the detector is selected by the two box strategies. *)
Lemma row_far_from_detector_is_selected :
  let c := cluster_of station_east in
  let r := particle 10 5 2 in
  Detector_get_xy_coordinates c station_east detector_UD = (10, 0)
  /\ in_symmetric_box 10 0 (3535534 # 10000000) r = false
  /\ GroundParticlesSimulation_selected c station_east detector_UD [r]
     = [r]
  /\ DetectorSignalSimulation_selected c station_east detector_UD [r]
     = [r].
Proof. repeat split; run_at_rest. Qed.

(** C3 at a detector at the origin, long side vertical (corners at
    [x = -0.25, 0.25] and [y = -0.5, 0.5]).  A lepton at [(0.3, 0)] is
    outside the rectangle and the polygon strategy rejects it, while the
    signal strategy, whose query has no line inequalities, selects it.  A
    lepton at [(0, 0.45)] is inside the rectangle and is selected by the
    polygon strategy, but lies outside the 0.3535534 box of the signal
    strategy. *)
Theorem signal_strategy_selects_by_box_only :
  let c := cluster_of station_centre in
  let beside := particle (3 # 10) 0 2 in
  let inside := particle 0 (45 # 100) 2 in
  (exists corners,
      Detector_get_corners c station_centre detector_UD = Ok corners
      /\ map (fun p : Q * Q => (Qred (fst p), Qred (snd p))) corners
         = [(- (1 # 4), - (1 # 2)); (1 # 4, - (1 # 2)); (1 # 4, 1 # 2);
            (- (1 # 4), 1 # 2)])
  /\ DetectorBoundarySimulation_selected c station_centre detector_UD
       [beside; inside] = Ok [inside]
  /\ DetectorSignalSimulation_selected c station_centre detector_UD
       [beside; inside] = [beside].
Proof.
  split; [|split]; [|run_at_rest|run_at_rest].
  eexists. split; [run_at_rest|reflexivity].
Qed.

Lemma neutrino_row_is_selected :
  let c := cluster_of station_centre in
  let r := particle 0 0 4 in
  row_particle_id r = 4%Z
  /\ GroundParticlesSimulation_selected c station_centre detector_UD [r]
     = [r]
  /\ DetectorBoundarySimulation_selected c station_centre detector_UD [r]
     = Ok [r]
  /\ DetectorSignalSimulation_selected c station_centre detector_UD [r]
     = [r]
  /\ GroundParticlesSimulation_simulate_detector_response
       c station_centre detector_UD [r] no_transport_delay
     = Ok {| obs_n := 1; obs_t := 0 |}.
Proof. repeat split; run_at_rest. Qed.
End AtRest.

(** C2 as the specification words it fails: a row with particle id 4 at the
    centre of a detector is selected by all three strategies and is counted
    in [n]. *)
Lemma particle_id_4_is_selected :
  let c := cluster_of station_centre in
  let r := particle 0 0 4 in
  row_particle_id r = 4%Z
  /\ GroundParticlesSimulation_selected (libm := libm_series)
       c station_centre detector_UD [r] = [r]
  /\ DetectorBoundarySimulation_selected (libm := libm_series)
       c station_centre detector_UD [r] = Ok [r]
  /\ DetectorSignalSimulation_selected (libm := libm_series)
       c station_centre detector_UD [r] = [r]
  /\ GroundParticlesSimulation_simulate_detector_response
       (libm := libm_series) c station_centre detector_UD [r]
       no_transport_delay
     = Ok {| obs_n := 1; obs_t := 0 |}.
Proof. exact (neutrino_row_is_selected (libm := libm_series)). Qed.

(** ** Detector corners *)

Section Corners.
Context {libm : Libm}.





End Corners.



(** ** Building clusters *)

Lemma add_station_result (c : BaseCluster) (position : Q * Q) (angle : Q)
  (detectors : list (Q * Q * string)) :
  BaseCluster__add_station c position angle detectors
  = Ok {| BaseCluster_x := BaseCluster_x c;
          BaseCluster_y := BaseCluster_y c;
          BaseCluster_alpha := BaseCluster_alpha c;
          BaseCluster_stations :=
            Some (stations_of c
                  ++ [{| Station_station_id :=
                           Z.of_nat (length (stations_of c)) + 1;
                         Station_position := position;
                         Station_angle := angle;
                         Station_detectors :=
                           match detectors with
                           | [] => None
                           | _ :: _ => Some (map detector_of detectors)
                           end;
                         Station_gps_offset := 0 |}]) |}.
Proof.
  unfold BaseCluster__add_station. rewrite Station_init_total.
  unfold stations_of. destruct (BaseCluster_stations c); reflexivity.
Qed.

Lemma stations_of_some (x y alpha : Q) (l : list Station) :
  stations_of {| BaseCluster_x := x; BaseCluster_y := y;
                 BaseCluster_alpha := alpha;
                 BaseCluster_stations := Some l |} = l.
Proof. reflexivity. Qed.

Lemma add_stations_result (specs : list (Q * Q * Q * list (Q * Q * string)))
  (c : BaseCluster) :
  exists c' added,
    add_stations c specs = Ok c'
    /\ BaseCluster_get_xyalpha_coordinates c'
       = BaseCluster_get_xyalpha_coordinates c
    /\ stations_of c' = stations_of c ++ added
    /\ map Station_station_id added
       = map (fun k => Z.of_nat (length (stations_of c) + k))
             (seq 1 (length specs))
    /\ map (fun st => (Station_position st, Station_angle st)) added
       = map fst specs.
Proof.
  revert c. induction specs as [|[[position angle] detectors] specs IH];
    intros c.
  - exists c, []. cbn. rewrite app_nil_r. repeat split.
  - unfold add_stations. cbn [exc_foldM fst snd].
    rewrite add_station_result. cbn [mbind exc_mbind exc_bind].
    match goal with
    | |- context [exc_foldM _ specs ?c1] =>
        destruct (IH c1) as (c' & added & Hrun & Hpose & Hst & Hids & Hpos)
    end.
    unfold add_stations in Hrun.
    eexists c', (_ :: added). split; [exact Hrun|].
    split; [rewrite Hpose; reflexivity|].
    rewrite stations_of_some in Hst, Hids.
    split; [rewrite Hst, <- app_assoc; reflexivity|].
    cbn [map length seq Station_station_id Station_position Station_angle
         fst snd].
    split.
    + f_equal; [lia|].
      rewrite <- (seq_shift (length specs) 1), map_map.
      rewrite Hids, length_app. cbn [length].
      apply map_ext. intros k. lia.
    + rewrite Hpos. reflexivity.
Qed.

(** X3. A cluster built by any sequence of [_add_station] calls is built
    without error, keeps the pose given to [BaseCluster.__init__], and
    numbers its stations 1, 2, ..., in insertion order, each with the
    position and angle it was added with. *)
Theorem stations_are_numbered_in_insertion_order (position : Q * Q)
  (angle : Q) (specs : list (Q * Q * Q * list (Q * Q * string))) :
  exists c,
    add_stations (BaseCluster_init position angle) specs = Ok c
    /\ BaseCluster_get_xyalpha_coordinates c
       = (fst position, snd position, angle)
    /\ map Station_station_id (stations_of c)
       = map Z.of_nat (seq 1 (length specs))
    /\ map (fun st => (Station_position st, Station_angle st))
           (stations_of c)
       = map fst specs.
Proof.
  destruct (add_stations_result specs (BaseCluster_init position angle))
    as (c & added & Hrun & Hpose & Hst & Hids & Hpos).
  exists c. split; [exact Hrun|]. split; [exact Hpose|].
  change (stations_of (BaseCluster_init position angle)) with (@nil Station)
    in Hst, Hids.
  cbn [app length Nat.add] in Hst, Hids.
  rewrite Hst. split; [exact Hids|exact Hpos].
Qed.

Section PredefinedClusters.
Context {libm : Libm}.

Lemma four_detector_layout_corners (c : BaseCluster) (s : Station)
  (station_size : Q) :
  Forall (fun d => exists p0 p1 p2 p3,
                     Detector_get_corners c s d = Ok [p0; p1; p2; p3])
         (map detector_of (four_detector_layout station_size)).
Proof.
  unfold four_detector_layout. cbn [map].
  repeat constructor; apply get_corners_known; cbn; auto.
Qed.

(** X4. [SimpleCluster] and [SingleStation] are built without error for
    every size: the cluster sits at pose [(0, 0, 0)], has four stations
    numbered 1 to 4 (one station numbered 1), every station has four
    detectors with orientations 'UD', 'UD', 'LR', 'LR', and [get_corners]
    returns four corners for each of them. *)
Theorem predefined_clusters_have_corners (size : Q) :
  (exists c,
      SimpleCluster_init size = Ok c
      /\ BaseCluster_get_xyalpha_coordinates c = (0, 0, 0)
      /\ map Station_station_id (stations_of c) = [1; 2; 3; 4]%Z
      /\ Forall (fun s =>
                   exists ds,
                     Station_detectors s = Some ds
                     /\ map Detector_orientation ds
                        = ["UD"; "UD"; "LR"; "LR"]%string
                     /\ Forall (fun d =>
                                  exists p0 p1 p2 p3,
                                    Detector_get_corners c s d
                                    = Ok [p0; p1; p2; p3]) ds)
                (stations_of c))
  /\ (exists c,
         SingleStation_init size = Ok c
         /\ BaseCluster_get_xyalpha_coordinates c = (0, 0, 0)
         /\ map Station_station_id (stations_of c) = [1]%Z
         /\ Forall (fun s =>
                      exists ds,
                        Station_detectors s = Some ds
                        /\ map Detector_orientation ds
                           = ["UD"; "UD"; "LR"; "LR"]%string
                        /\ Forall (fun d =>
                                     exists p0 p1 p2 p3,
                                       Detector_get_corners c s d
                                       = Ok [p0; p1; p2; p3]) ds)
                   (stations_of c)).
Proof.
  split.
  - unfold SimpleCluster_init.
    rewrite add_station_result. cbn [mbind exc_mbind exc_bind].
    rewrite add_station_result. cbn [mbind exc_mbind exc_bind].
    rewrite add_station_result. cbn [mbind exc_mbind exc_bind].
    rewrite add_station_result.
    eexists. split; [reflexivity|]. split; [reflexivity|].
    split; [reflexivity|].
    rewrite stations_of_some.
    repeat (rewrite stations_of_some || unfold stations_of at 1;
            cbn [BaseCluster_init BaseCluster_stations default from_option
                 id app]).
    repeat constructor;
      (eexists; split; [reflexivity|]; split; [reflexivity|];
       apply four_detector_layout_corners).
  - unfold SingleStation_init. rewrite add_station_result.
    eexists. split; [reflexivity|]. split; [reflexivity|].
    split; [reflexivity|].
    rewrite stations_of_some.
    unfold stations_of.
    cbn [BaseCluster_init BaseCluster_stations default from_option id app].
    repeat constructor;
      (eexists; split; [reflexivity|]; split; [reflexivity|];
       apply four_detector_layout_corners).
Qed.
End PredefinedClusters.

(** ** Detector indices *)

Lemma py_index_in_range {A : Type} (l : list A) (i : Z) :
  (0 <= i < Z.of_nat (length l))%Z ->
  exists a, py_index l i = Ok a /\ l !! Z.to_nat i = Some a.
Proof.
  intros Hi. unfold py_index. cbv zeta.
  destruct (i <? 0)%Z eqn:E1; [apply Z.ltb_lt in E1; lia|].
  destruct ((i <? 0) || (Z.of_nat (length l) <=? i))%Z eqn:E2.
  - apply orb_true_iff in E2. destruct E2 as [E2|E2].
    + apply Z.ltb_lt in E2. lia.
    + apply Z.leb_le in E2. lia.
  - destruct (l !! Z.to_nat i) as [a|] eqn:E3.
    + exists a. split; reflexivity.
    + apply lookup_ge_None in E3. lia.
Qed.

Lemma py_index_negative {A : Type} (l : list A) (i : Z) :
  (- Z.of_nat (length l) <= i < 0)%Z ->
  py_index l i = py_index l (i + Z.of_nat (length l)).
Proof.
  intros Hi. unfold py_index. cbv zeta.
  assert (E1 : (i <? 0)%Z = true) by (apply Z.ltb_lt; lia).
  assert (E2 : (i + Z.of_nat (length l) <? 0)%Z = false)
    by (apply Z.ltb_ge; lia).
  rewrite E1, !E2. reflexivity.
Qed.

Lemma py_index_out_of_range {A : Type} (l : list A) (i : Z) :
  (i < - Z.of_nat (length l) \/ Z.of_nat (length l) <= i)%Z ->
  py_index l i = Raise "IndexError: list index out of range".
Proof.
  intros Hi. unfold py_index. cbv zeta.
  destruct (i <? 0)%Z eqn:E1.
  - apply Z.ltb_lt in E1.
    destruct (i + Z.of_nat (length l) <? 0)%Z eqn:E2.
    + reflexivity.
    + apply Z.ltb_ge in E2. lia.
  - apply Z.ltb_ge in E1.
    destruct (i <? 0)%Z; [reflexivity|].
    destruct (Z.of_nat (length l) <=? i)%Z eqn:E3; [reflexivity|].
    apply Z.leb_gt in E3. lia.
Qed.

Lemma calc_r_and_phi_detector_numbers {libm : Libm}
  {libm2 : Libm_atan2} (c : BaseCluster) (s : Station)
  (ds : list Detector) (s2 : Z) :
  Station_detectors s = Some ds ->
  ds <> [] ->
  Station_calc_r_and_phi_for_detectors c s 0 s2
  = Station_calc_r_and_phi_for_detectors c s (Z.of_nat (length ds)) s2
  /\ Station_calc_r_and_phi_for_detectors c s s2 0
     = Station_calc_r_and_phi_for_detectors c s s2 (Z.of_nat (length ds))
  /\ Station_calc_r_and_phi_for_detectors c s (Z.of_nat (length ds) + 1) s2
     = Raise "IndexError: list index out of range".
Proof.
  intros Hds Hne.
  assert (Hlen : (0 < length ds)%nat) by (destruct ds; [congruence|cbn; lia]).
  unfold Station_calc_r_and_phi_for_detectors. rewrite Hds.
  assert (H0 : py_index ds (0 - 1) = py_index ds (Z.of_nat (length ds) - 1)).
  { rewrite py_index_negative by lia. f_equal. lia. }
  repeat split.
  - rewrite H0. reflexivity.
  - rewrite H0. reflexivity.
  - rewrite (py_index_out_of_range ds (Z.of_nat (length ds) + 1 - 1))
      by lia.
    reflexivity.
Qed.

(** X5. [calc_r_and_phi_for_detectors] takes 1-based detector numbers but
    subscripts with [s - 1]: number 0 does not fail, it silently addresses
    the station's last detector (and [-k] the detector [k] places before
    it), while a number above the detector count raises [IndexError]. *)
Theorem detector_number_zero_is_last_detector {libm : Libm}
  {libm2 : Libm_atan2} (c : BaseCluster) (s0 : Station) (d : Detector)
  (ds : list Detector) (s2 : Z) :
  let s := with_detectors s0 (Some (d :: ds)) in
  let n := Z.of_nat (length (d :: ds)) in
  Station_calc_r_and_phi_for_detectors c s 0 s2
  = Station_calc_r_and_phi_for_detectors c s n s2
  /\ Station_calc_r_and_phi_for_detectors c s s2 0
     = Station_calc_r_and_phi_for_detectors c s s2 n
  /\ Station_calc_r_and_phi_for_detectors c s (n + 1) s2
     = Raise "IndexError: list index out of range".
Proof.
  intros s n. subst s n.
  apply calc_r_and_phi_detector_numbers; [reflexivity|discriminate].
Qed.

(** ** The boundary lines of the polygon strategy *)



(** The example of the docstring:
    [get_line_boundary_eqs((0, 0), (1, 1), (0, 2))] is
    [(0.0, 'y - 1.000000 * x', 2.0)]. *)
Example get_line_boundary_eqs_docstring :
  let r := DetectorBoundarySimulation_get_line_boundary_eqs
             (0, 0) (1, 1) (0, 2) in
  fst (fst r) == 0
  /\ snd (fst r) = ESub (ECol col_y) (EMul (EConst (1000000 # 1000000))
                                           (ECol col_x))
  /\ snd r == 2.
Proof. repeat split. Qed.

(** ** From selected rows to observables *)

Lemma py_min_spec (x : Q) (l : list Q) :
  In (py_min x l) (x :: l) /\ Forall (Qle (py_min x l)) (x :: l).
Proof.
  unfold py_min. revert x. induction l as [|y l IH]; intros x.
  - cbn. split; [auto|]. repeat constructor. lra.
  - cbn [fold_left]. destruct (IH (Qmin x y)) as [Hin Hall].
    assert (Hm : (Qmin x y = x /\ x <= y) \/ (Qmin x y = y /\ y <= x)).
    { destruct (Q.min_spec x y) as [[Hlt Heq]|[Hle Heq]].
      - left. split; [|lra].
        unfold Qmin, GenericMinMax.gmin.
        destruct (Qcompare x y) eqn:C; try reflexivity.
        apply Qgt_alt in C. lra.
      - unfold Qmin, GenericMinMax.gmin.
        destruct (Qcompare x y) eqn:C.
        + apply Qeq_alt in C. left. split; [reflexivity|lra].
        + apply Qlt_alt in C. left. split; [reflexivity|lra].
        + right. split; [reflexivity|exact Hle]. }
    inversion Hall as [|? ? Hhead Htail]; subst.
    split.
    + destruct Hin as [Hin|Hin].
      * destruct Hm as [[Hm _]|[Hm _]]; rewrite Hm in *; rewrite <- Hin;
          cbn; auto.
      * cbn. auto.
    + destruct Hm as [[Hm Hxy]|[Hm Hyx]]; rewrite Hm in *.
      * constructor; [exact Hhead|]. constructor; [lra|exact Htail].
      * constructor; [lra|]. constructor; [exact Hhead|exact Htail].
Qed.

Lemma add_transporttimes_enough (detected transporttimes : list Q) :
  (length detected <= length transporttimes)%nat ->
  add_transporttimes detected transporttimes
  = Ok (map (fun p => fst p + snd p) (combine detected transporttimes)).
Proof.
  revert transporttimes.
  induction detected as [|d ds IH]; intros [|dt dts] Hlen;
    cbn [length] in Hlen; try lia; try reflexivity.
  cbn [add_transporttimes combine map fst snd].
  rewrite IH by lia. reflexivity.
Qed.

Lemma add_transporttimes_short (detected transporttimes : list Q) :
  (length transporttimes < length detected)%nat ->
  add_transporttimes detected transporttimes
  = Raise "IndexError: index out of bounds".
Proof.
  revert transporttimes.
  induction detected as [|d ds IH]; intros [|dt dts] Hlen;
    cbn [length] in Hlen; try lia; try reflexivity.
  cbn [add_transporttimes]. rewrite IH by lia. reflexivity.
Qed.

Lemma add_transporttimes_length (detected transporttimes out : list Q) :
  add_transporttimes detected transporttimes = Ok out ->
  length out = length detected.
Proof.
  revert transporttimes out.
  induction detected as [|d ds IH]; intros [|dt dts] out H;
    cbn [add_transporttimes] in H; try discriminate;
    try (injection H as <-; reflexivity).
  destruct (add_transporttimes ds dts) as [rest|msg] eqn:E;
    cbn [mbind exc_mbind exc_bind] in H; [|discriminate].
  injection H as <-. cbn [length]. rewrite (IH dts rest E). reflexivity.
Qed.

Lemma count_and_first_arrival_spec (detected : list Q)
  (transport : nat -> list Q) :
  let corrected :=
    map (fun p => fst p + snd p)
        (combine detected (transport (length detected))) in
  (detected = [] -> count_and_first_arrival detected transport
                    = Ok no_particles)
  /\ (detected <> [] ->
      (length detected <= length (transport (length detected)))%nat ->
      exists o,
        count_and_first_arrival detected transport = Ok o
        /\ obs_n o = inject_Z (Z.of_nat (length detected))
        /\ 0 < obs_n o
        /\ In (obs_t o) corrected
        /\ Forall (Qle (obs_t o)) corrected)
  /\ ((length (transport (length detected)) < length detected)%nat ->
      count_and_first_arrival detected transport
      = Raise "IndexError: index out of bounds").
Proof.
  intros corrected. subst corrected. split; [|split].
  - intros ->. reflexivity.
  - intros Hne Hlen. destruct detected as [|d ds]; [congruence|].
    unfold count_and_first_arrival.
    rewrite add_transporttimes_enough by exact Hlen.
    cbn [mbind exc_mbind exc_bind].
    destruct (transport (length (d :: ds))) as [|dt dts];
      [cbn [length] in Hlen; lia|].
    cbn [combine map fst snd].
    eexists. split; [reflexivity|]. cbn [obs_n obs_t].
    split; [reflexivity|]. split.
    + change 0 with (inject_Z 0). rewrite <- Zlt_Qlt. cbn [length]. lia.
    + apply py_min_spec.
  - intros Hlen. destruct detected as [|d ds]; [cbn in Hlen; lia|].
    unfold count_and_first_arrival.
    rewrite add_transporttimes_short by exact Hlen. reflexivity.
Qed.

Section Responses.
Context {libm : Libm}.

Lemma square_response_spec
  (c : BaseCluster) (s : Station) (d : Detector) (table : list row)
  (transport : nat -> list Q) :
  let rows := GroundParticlesSimulation_selected c s d table in
  let delays := transport (length rows) in
  (rows = [] ->
   GroundParticlesSimulation_simulate_detector_response c s d table transport
   = Ok no_particles)
  /\ (rows <> [] -> (length rows <= length delays)%nat ->
      exists o,
        GroundParticlesSimulation_simulate_detector_response c s d table
          transport = Ok o
        /\ obs_n o = inject_Z (Z.of_nat (length rows))
        /\ 0 < obs_n o
        /\ In (obs_t o) (corrected_times rows delays)
        /\ Forall (Qle (obs_t o)) (corrected_times rows delays))
  /\ ((length delays < length rows)%nat ->
      GroundParticlesSimulation_simulate_detector_response c s d table
        transport
      = Raise "IndexError: index out of bounds").
Proof.
  intros rows delays. subst rows delays.
  unfold GroundParticlesSimulation_simulate_detector_response,
    corrected_times.
  set (rows := GroundParticlesSimulation_selected c s d table).
  destruct (count_and_first_arrival_spec (map row_t rows) transport)
    as (H1 & H2 & H3).
  rewrite length_map in H2, H3.
  split; [|split].
  - intros E. apply H1. rewrite E. reflexivity.
  - intros Hne Hlen. apply H2; [|exact Hlen].
    destruct rows; [congruence|discriminate].
  - exact H3.
Qed.

(** X7. The square strategy reports, when its query selects rows and the
    transport collaborator returns a delay for each of them, the number of
    selected rows as [n] (so [n > 0]) and as [t] the least arrival time
    after the delays are added row by row.  With no selected row it reports
    [n = 0], [t = -999] without consulting the collaborator; with fewer
    delays than rows it raises [IndexError]. *)
Theorem square_response_counts_rows_and_takes_first_arrival
  (c : BaseCluster) (s : Station) (d : Detector) (table : list row)
  (transport : nat -> list Q) :
  let rows := GroundParticlesSimulation_selected c s d table in
  let delays := transport (length rows) in
  (rows = [] ->
   GroundParticlesSimulation_simulate_detector_response c s d table transport
   = Ok no_particles)
  /\ (rows <> [] -> (length rows <= length delays)%nat ->
      exists o,
        GroundParticlesSimulation_simulate_detector_response c s d table
          transport = Ok o
        /\ obs_n o = inject_Z (Z.of_nat (length rows))
        /\ 0 < obs_n o
        /\ In (obs_t o) (corrected_times rows delays)
        /\ Forall (Qle (obs_t o)) (corrected_times rows delays))
  /\ ((length delays < length rows)%nat ->
      GroundParticlesSimulation_simulate_detector_response c s d table
        transport
      = Raise "IndexError: index out of bounds").
Proof.
  intros rows delays. subst rows delays.
  unfold GroundParticlesSimulation_simulate_detector_response,
    corrected_times.
  set (rows := GroundParticlesSimulation_selected c s d table).
  destruct (count_and_first_arrival_spec (map row_t rows) transport)
    as (H1 & H2 & H3).
  rewrite length_map in H2, H3.
  split; [|split].
  - intros E. apply H1. rewrite E. reflexivity.
  - intros Hne Hlen. apply H2; [|exact Hlen].
    destruct rows; [congruence|discriminate].
  - exact H3.
Qed.

(** X8. The signal strategy runs the query of the square strategy, so for
    every table its response is the response of the square strategy with,
    when rows were selected, [n] replaced by the MIP signal of the selected
    rows' momenta; the arrival time [t] and the failures are the same. *)
Theorem signal_response_is_square_response_with_mips
  (c : BaseCluster) (s : Station) (d : Detector) (table : list row)
  (mips : list (Q * Q * Q) -> Q) (transport : nat -> list Q) :
  DetectorSignalSimulation_simulate_detector_response c s d table mips
    transport
  = (o ← GroundParticlesSimulation_simulate_detector_response c s d table
           transport;
     match GroundParticlesSimulation_selected c s d table with
     | [] => Ok o
     | rows =>
         Ok {| obs_n := mips (map (fun p => (row_p_x p, row_p_y p, row_p_z p))
                                  rows);
               obs_t := obs_t o |}
     end).
Proof.
  unfold DetectorSignalSimulation_simulate_detector_response,
    GroundParticlesSimulation_simulate_detector_response,
    count_and_first_arrival.
  change (DetectorSignalSimulation_selected c s d table)
    with (GroundParticlesSimulation_selected c s d table).
  destruct (GroundParticlesSimulation_selected c s d table) as [|r rows].
  - reflexivity.
  - cbn [map length]. rewrite !length_map.
    destruct (add_transporttimes (row_t r :: map row_t rows)
                (transport (S (length rows)))) as [[|t0 ts]|msg] eqn:E;
      try reflexivity.
    apply add_transporttimes_length in E. discriminate.
Qed.
End Responses.

Lemma square_response_of_two_rows :
  let rows :=
    GroundParticlesSimulation_selected (libm := libm_series)
      (cluster_of station_centre) station_centre detector_UD
      [particle 0 0 2; particle (1 # 10) 0 3] in
  rows <> []
  /\ (length rows <= length (no_transport_delay (length rows)))%nat
  /\ exists o,
       GroundParticlesSimulation_simulate_detector_response
         (libm := libm_series) (cluster_of station_centre) station_centre
         detector_UD [particle 0 0 2; particle (1 # 10) 0 3]
         no_transport_delay = Ok o
       /\ obs_n o = inject_Z (Z.of_nat (length rows))
       /\ 0 < obs_n o
       /\ In (obs_t o)
             (corrected_times rows (no_transport_delay (length rows)))
       /\ Forall (Qle (obs_t o))
                 (corrected_times rows (no_transport_delay (length rows))).
Proof.
  intros rows.
  assert (Hne : rows <> []) by (vm_compute; discriminate).
  assert (Hlen : (length rows <= length (no_transport_delay (length rows)))
                 %nat) by (vm_compute; lia).
  split; [exact Hne|]. split; [exact Hlen|].
  exact (proj1 (proj2
           (square_response_counts_rows_and_takes_first_arrival
              (libm := libm_series) (cluster_of station_centre)
              station_centre detector_UD
              [particle 0 0 2; particle (1 # 10) 0 3] no_transport_delay))
           Hne Hlen).
Defined.

Section TriggerOfResponses.
Context {libm : Libm}.

Lemma square_response_hit (c : BaseCluster) (s : Station) (d : Detector)
  (table : list row) (transport : nat -> list Q) (o : observables) :
  GroundParticlesSimulation_simulate_detector_response c s d table transport
  = Ok o ->
  negb (Qle_bool (obs_n o) 0) = is_hit c s table d.
Proof.
  intros H. unfold is_hit.
  destruct (square_response_spec c s d table transport) as (H1 & H2 & H3).
  destruct (GroundParticlesSimulation_selected c s d table) as [|r rows]
    eqn:E.
  - rewrite (H1 eq_refl) in H. injection H as <-. reflexivity.
  - destruct (le_lt_dec (length (r :: rows))
                        (length (transport (length (r :: rows)))))
      as [Hle|Hlt].
    + destruct (H2 ltac:(discriminate) Hle) as (o' & Ho' & _ & Hpos & _).
      rewrite Ho' in H. injection H as <-.
      apply negb_true_iff, Qle_bool_false. exact Hpos.
    + rewrite (H3 Hlt) in H. discriminate.
Qed.

(** X9. When the square strategy answers for each detector of a list, the
    trigger computed from the answers fires exactly when the queries of at
    least two of the detectors selected a row. *)
Theorem trigger_fires_iff_two_detectors_selected_rows (c : BaseCluster)
  (s : Station) (table : list row) (transport : nat -> list Q)
  (ds : list Detector) (os : list observables) :
  Forall2 (fun d o =>
             GroundParticlesSimulation_simulate_detector_response
               c s d table transport = Ok o) ds os ->
  (GroundParticlesSimulation_simulate_trigger os = true
   <-> (2 <= length (List.filter (is_hit c s table) ds))%nat).
Proof.
  intros H.
  assert (Hcount : detectors_with_particles os
                   = length (List.filter (is_hit c s table) ds)).
  { unfold detectors_with_particles.
    induction H as [|d o ds os Hd _ IH]; [reflexivity|].
    cbn [List.filter]. rewrite (square_response_hit c s d table transport o Hd).
    destruct (is_hit c s table d); cbn [length]; rewrite IH; reflexivity. }
  rewrite simulate_trigger_counts, Hcount, Z.leb_le. lia.
Qed.
End TriggerOfResponses.

Lemma trigger_of_two_hit_detectors :
  let east := {| Detector_x := 5; Detector_y := 0;
                 Detector_orientation := "LR" |} in
  let table := [particle 0 0 2; particle 5 0 3] in
  let hit := {| obs_n := 1; obs_t := 0 |} in
  Forall2 (fun d o =>
             GroundParticlesSimulation_simulate_detector_response
               (libm := libm_series) (cluster_of station_centre)
               station_centre d table no_transport_delay = Ok o)
          [detector_UD; east] [hit; hit]
  /\ (GroundParticlesSimulation_simulate_trigger [hit; hit] = true
      <-> (2 <= length (List.filter
                          (is_hit (libm := libm_series)
                             (cluster_of station_centre) station_centre
                             table)
                          [detector_UD; east]))%nat).
Proof.
  intros east table hit.
  assert (H : Forall2 (fun d o =>
             GroundParticlesSimulation_simulate_detector_response
               (libm := libm_series) (cluster_of station_centre)
               station_centre d table no_transport_delay = Ok o)
          [detector_UD; east] [hit; hit])
    by (repeat constructor).
  split; [exact H|].
  exact (trigger_fires_iff_two_detectors_selected_rows
           (libm := libm_series) (cluster_of station_centre) station_centre
           table no_transport_delay [detector_UD; east] [hit; hit] H).
Defined.

(** ** More on the GPS time stamp *)

Lemma simulate_gps_unfold (so : gmap string Q) (shower : shower_parameters)
  (station : Station) (u : Q) :
  GroundParticlesSimulation_simulate_gps so shower station u
  = match arrival_times so [1; 2; 3; 4]%Z with
    | Raise msg => Raise msg
    | Ok times =>
        if (1 <? length times)%nat then
          match sorted times !! 1%nat with
          | Some trigger_time =>
              Ok (with_gps_timestamp so
                    (sp_ext_timestamp shower
                     + py_int (trigger_time + Station_gps_offset station
                               + u))%Z)
          | None => Raise "IndexError: list index out of range"
          end
        else Ok so
    end.
Proof.
  unfold GroundParticlesSimulation_simulate_gps.
  destruct (arrival_times so [1; 2; 3; 4]%Z); reflexivity.
Qed.

Lemma with_gps_timestamp_other_key (so : gmap string Q) (e : Z)
  (k : string) :
  k <> "ext_timestamp"%string -> k <> "timestamp"%string ->
  k <> "nanoseconds"%string ->
  with_gps_timestamp so e !! k = so !! k.
Proof.
  intros H1 H2 H3. unfold with_gps_timestamp.
  rewrite !lookup_insert_ne by congruence. reflexivity.
Qed.

Lemma with_gps_timestamp_twice (so : gmap string Q) (e e' : Z) :
  with_gps_timestamp (with_gps_timestamp so e) e' = with_gps_timestamp so e'.
Proof.
  unfold with_gps_timestamp. apply map_eq. intros k.
  rewrite !lookup_insert. repeat case_decide; congruence.
Qed.

Lemma arrival_times_ext (so so' : gmap string Q) (ids : list Z) :
  (forall id, In id ids ->
              so' !! key "n" id = so !! key "n" id
              /\ so' !! key "t" id = so !! key "t" id) ->
  arrival_times so' ids = arrival_times so ids.
Proof.
  induction ids as [|id ids IH]; intros H; [reflexivity|].
  cbn [arrival_times].
  destruct (H id (or_introl eq_refl)) as [-> ->].
  rewrite IH by (intros id' Hin; apply H; right; exact Hin).
  reflexivity.
Qed.

Lemma arrival_times_stamped (so : gmap string Q) (e : Z) :
  arrival_times (with_gps_timestamp so e) [1; 2; 3; 4]%Z
  = arrival_times so [1; 2; 3; 4]%Z.
Proof.
  apply arrival_times_ext. intros id Hin.
  destruct Hin as [<-|[<-|[<-|[<-|[]]]]];
    split; apply with_gps_timestamp_other_key;
    vm_compute; discriminate.
Qed.

(** X10. A successful [simulate_gps] changes at most the three keys
    'ext_timestamp', 'timestamp' and 'nanoseconds': every other entry of the
    station observables, in particular each [n<i>] and [t<i>], is returned
    as it was, present or absent. *)
Theorem simulate_gps_keeps_other_entries (so so' : gmap string Q)
  (shower : shower_parameters) (station : Station) (u : Q) (k : string) :
  GroundParticlesSimulation_simulate_gps so shower station u = Ok so' ->
  k <> "ext_timestamp"%string -> k <> "timestamp"%string ->
  k <> "nanoseconds"%string ->
  so' !! k = so !! k.
Proof.
  rewrite simulate_gps_unfold. intros H H1 H2 H3.
  destruct (arrival_times so [1; 2; 3; 4]%Z) as [times|msg]; [|discriminate].
  destruct (1 <? length times)%nat.
  - destruct (sorted times !! 1%nat); [|discriminate].
    injection H as <-. apply with_gps_timestamp_other_key; assumption.
  - injection H as <-. reflexivity.
Qed.

(** X11. [simulate_gps] is idempotent: applied again, with the same shower,
    station and jitter, to the observables it returned, it returns them
    unchanged (the stamp is recomputed from the same arrival times and
    overwrites itself). *)
Theorem simulate_gps_twice (so so' : gmap string Q)
  (shower : shower_parameters) (station : Station) (u : Q) :
  GroundParticlesSimulation_simulate_gps so shower station u = Ok so' ->
  GroundParticlesSimulation_simulate_gps so' shower station u = Ok so'.
Proof.
  rewrite !simulate_gps_unfold. intros H.
  destruct (arrival_times so [1; 2; 3; 4]%Z) as [times|msg] eqn:E;
    [|discriminate].
  destruct (1 <? length times)%nat eqn:E1.
  - destruct (sorted times !! 1%nat) eqn:E2; [|discriminate].
    injection H as <-.
    rewrite arrival_times_stamped, E, E1, E2, with_gps_timestamp_twice.
    reflexivity.
  - injection H as <-. rewrite E, E1. reflexivity.
Qed.

Lemma arrival_times_missing (so : gmap string Q) (ids : list Z) (id : Z) :
  In id ids ->
  0 < default (-1) (so !! key "n" id) ->
  so !! key "t" id = None ->
  raises (arrival_times so ids).
Proof.
  intros Hin Hn Ht. induction ids as [|id' ids IH]; [destruct Hin|].
  cbn [arrival_times].
  destruct (negb (Qle_bool (default (-1) (so !! key "n" id')) 0)) eqn:E.
  - destruct (so !! key "t" id') as [t|] eqn:Et.
    + destruct Hin as [->|Hin]; [congruence|].
      specialize (IH Hin).
      destruct (arrival_times so ids); [destruct IH|exact I].
    + exact I.
  - destruct Hin as [->|Hin].
    + apply negb_false_iff, Qle_bool_iff in E. lra.
    + exact (IH Hin).
Qed.

(** X12. If one of the detectors 1 to 4 reports [n > 0] but the
    observables have no [t] for it, [simulate_gps] raises ([KeyError]) and
    returns nothing, however many detectors were hit. *)
Theorem simulate_gps_raises_on_missing_time (so : gmap string Q)
  (shower : shower_parameters) (station : Station) (u : Q) (id : Z) :
  In id [1; 2; 3; 4]%Z ->
  0 < default (-1) (so !! key "n" id) ->
  so !! key "t" id = None ->
  raises (GroundParticlesSimulation_simulate_gps so shower station u).
Proof.
  intros Hin Hn Ht. rewrite simulate_gps_unfold.
  pose proof (arrival_times_missing so [1; 2; 3; 4]%Z id Hin Hn Ht) as H.
  destruct (arrival_times so [1; 2; 3; 4]%Z); [destruct H|exact I].
Qed.

Lemma simulate_gps_keeps_n1_in_spec_scenario :
  GroundParticlesSimulation_simulate_gps two_hit_observables first_shower
    (station_with_gps_offset 0) 0
  = Ok (with_gps_timestamp two_hit_observables 1000000000000000005)
  /\ with_gps_timestamp two_hit_observables 1000000000000000005 !! "n1"
     = two_hit_observables !! "n1".
Proof.
  assert (H : GroundParticlesSimulation_simulate_gps two_hit_observables
                first_shower (station_with_gps_offset 0) 0
              = Ok (with_gps_timestamp two_hit_observables
                      1000000000000000005))
    by (vm_compute; reflexivity).
  split; [exact H|].
  apply (simulate_gps_keeps_other_entries two_hit_observables _ first_shower
           (station_with_gps_offset 0) 0 "n1" H); discriminate.
Defined.

Lemma simulate_gps_twice_in_spec_scenario :
  GroundParticlesSimulation_simulate_gps two_hit_observables first_shower
    (station_with_gps_offset 0) 0
  = Ok (with_gps_timestamp two_hit_observables 1000000000000000005)
  /\ GroundParticlesSimulation_simulate_gps
       (with_gps_timestamp two_hit_observables 1000000000000000005)
       first_shower (station_with_gps_offset 0) 0
     = Ok (with_gps_timestamp two_hit_observables 1000000000000000005).
Proof.
  assert (H : GroundParticlesSimulation_simulate_gps two_hit_observables
                first_shower (station_with_gps_offset 0) 0
              = Ok (with_gps_timestamp two_hit_observables
                      1000000000000000005))
    by (vm_compute; reflexivity).
  split; [exact H|].
  exact (simulate_gps_twice two_hit_observables _ first_shower
           (station_with_gps_offset 0) 0 H).
Defined.

Lemma simulate_gps_raises_without_t1 :
  let so : gmap string Q := <["n1" := 1]> ∅ in
  In 1%Z [1; 2; 3; 4]%Z
  /\ 0 < default (-1) (so !! key "n" 1)
  /\ so !! key "t" 1 = None
  /\ raises (GroundParticlesSimulation_simulate_gps so first_shower
               (station_with_gps_offset 0) 0).
Proof.
  intros so.
  assert (H1 : In 1%Z [1; 2; 3; 4]%Z) by (left; reflexivity).
  assert (H2 : 0 < default (-1) (so !! key "n" 1)) by reflexivity.
  assert (H3 : so !! key "t" 1 = None) by reflexivity.
  split; [exact H1|]. split; [exact H2|]. split; [exact H3|].
  exact (simulate_gps_raises_on_missing_time so first_shower
           (station_with_gps_offset 0) 0 1 H1 H2 H3).
Defined.

(** ** The shower generator *)

Section Generator.
Context {libm : Libm}.

Lemma prepare_cluster_overwrites (cluster : BaseCluster)
  (x y alpha x' y' alpha' : Q) :
  GroundParticlesSimulation__prepare_cluster_for_shower
    (GroundParticlesSimulation__prepare_cluster_for_shower cluster x y alpha)
    x' y' alpha'
  = GroundParticlesSimulation__prepare_cluster_for_shower cluster x' y' alpha'.
Proof. reflexivity. Qed.

(** The cluster in force for the shower of turn [i]: the cluster re-posed
    with that turn's core offset and rotation. *)
Lemma generate_shower_parameters_from_spec (header : event_header)
  (ending : event_end) (rng : nat -> draws) (cluster0 cluster : BaseCluster)
  (i n : nat) :
  BaseCluster_stations cluster = BaseCluster_stations cluster0 ->
  generate_shower_parameters_from header ending rng cluster i n
  = map (fun k => generate_shower header ending cluster0 k (rng k))
        (seq i n).
Proof.
  revert cluster i. induction n as [|n IH]; intros cluster i Hst;
    [reflexivity|].
  cbn [generate_shower_parameters_from seq map].
  unfold generate_shower at 1 3.
  unfold GroundParticlesSimulation__prepare_cluster_for_shower,
    BaseCluster_set_coordinates, BaseCluster_set_xyalpha_coordinates.
  rewrite Hst. f_equal. apply IH. reflexivity.
Qed.

(** X13. The generator yields exactly [N] showers, and shower [i] carries
    the time stamp [(10^9 + i) * 10^9]: the time stamps are strictly
    increasing, fall on whole seconds [10^9 + i], and do not depend on any
    random draw. *)
Theorem generated_timestamps_are_successive_seconds
  (header : event_header) (ending : event_end) (rng : nat -> draws)
  (cluster : BaseCluster) (N : nat) :
  let stamps :=
    map (fun p => sp_ext_timestamp (fst p))
        (GroundParticlesSimulation_generate_shower_parameters
           header ending rng cluster N) in
  stamps = map (fun i => ((1000000000 + Z.of_nat i) * 1000000000)%Z)
               (seq 0 N)
  /\ length stamps = N
  /\ StronglySorted Z.lt stamps
  /\ Forall (fun e => (e mod 1000000000 = 0)%Z) stamps.
Proof.
  intros stamps. subst stamps.
  unfold GroundParticlesSimulation_generate_shower_parameters.
  rewrite (generate_shower_parameters_from_spec header ending rng cluster
             cluster 0 N eq_refl).
  rewrite map_map. cbn [generate_shower fst sp_ext_timestamp].
  unfold long_1e9. split; [reflexivity|].
  split; [rewrite length_map, length_seq; reflexivity|].
  generalize 0%nat. induction N as [|N IH]; intros i; cbn [seq map].
  - split; constructor.
  - destruct (IH (S i)) as [Hs Hm]. split.
    + constructor; [exact Hs|].
      apply List.Forall_forall. intros e He.
      apply in_map_iff in He. destruct He as (k & <- & Hk).
      apply in_seq in Hk. lia.
    + constructor; [|exact Hm].
      apply Z.mod_mul. lia.
Qed.

End Generator.

(** ** The azimuth beyond the input ranges *)

(** X15. The single correction step brings the sum [alpha + azimuth] into
    [(-pi, pi]] exactly when the sum lies in [(-3 pi, 3 pi]]; a sum already
    in [(-pi, pi]] is returned as it is, and in every case the result
    differs from the sum by 0 or by [2 pi] in either direction. *)
Theorem shower_azimuth_single_step_reach (alpha azimuth : Q) :
  ((- pi < shower_azimuth alpha azimuth
    /\ shower_azimuth alpha azimuth <= pi)
   <-> (- (3 * pi) < alpha + azimuth /\ alpha + azimuth <= 3 * pi))
  /\ (shower_azimuth alpha azimuth == alpha + azimuth
      \/ shower_azimuth alpha azimuth == alpha + azimuth - 2 * pi
      \/ shower_azimuth alpha azimuth == alpha + azimuth + 2 * pi)
  /\ ((- pi < alpha + azimuth /\ alpha + azimuth <= pi) ->
      shower_azimuth alpha azimuth = alpha + azimuth).
Proof.
  unfold shower_azimuth.
  pose proof pi_positive as Hpi. revert Hpi. generalize pi. intros p Hpi.
  destruct (Qle_bool (alpha + azimuth) p) eqn:E1; cbn [negb].
  - apply Qle_bool_iff in E1.
    destruct (Qle_bool (alpha + azimuth) (- p)) eqn:E2.
    + apply Qle_bool_iff in E2. split; [|split].
      * split; intros [H1 H2]; split; lra.
      * right. right. reflexivity.
      * intros [H1 H2]. lra.
    + apply Qle_bool_false in E2. split; [|split].
      * split; intros [H1 H2]; split; lra.
      * left. reflexivity.
      * reflexivity.
  - apply Qle_bool_false in E1. split; [|split].
    + split; intros [H1 H2]; split; lra.
    + right. left. reflexivity.
    + intros [H1 H2]. lra.
Qed.

Lemma shower_azimuth_of_sum_ten :
  ~ (- pi < shower_azimuth 5 5 /\ shower_azimuth 5 5 <= pi).
Proof.
  intros H.
  apply (proj1 (shower_azimuth_single_step_reach 5 5)) in H.
  destruct H as [_ H]. apply Qle_bool_iff in H. vm_compute in H.
  discriminate H.
Defined.

(** ** The printed bounds *)



Section PrintedBounds.
Context {libm : Libm}.

End PrintedBounds.


(** ** The polygon strategy on an unrotated detector *)






Section UnrotatedPolygon.
Context {libm : Libm}.


End UnrotatedPolygon.


(** ** Storing downloaded events *)

Ltac bind_ok H :=
  match type of H with
  | context [@int_of_string ?py ?f] =>
      destruct (@int_of_string py f) eqn:?;
      cbn [mbind exc_mbind exc_bind] in H; [|discriminate H]
  | context [@float_of_string ?py ?f] =>
      destruct (@float_of_string py f) eqn:?;
      cbn [mbind exc_mbind exc_bind] in H; [|discriminate H]
  end.

Section StoreEvents.
Context {py : PyBuiltins}.

Lemma read_line_result (line : list string) (table table' : list event)
  (ts : Q) :
  read_line_and_store_event line table = Ok (ts, table') ->
  (ts = 0 /\ table' = table /\ length line <> 0%nat)
  \/ (exists e,
        table' = table ++ [e]
        /\ length line = 21%nat
        /\ ev_event_id e = Z.of_nat (length table)
        /\ ev_ext_timestamp e
           = (ev_timestamp e * 1000000000 + ev_nanoseconds e)%Z
        /\ ts = inject_Z (ev_timestamp e)
        /\ length (ev_pulseheights e) = 4%nat
        /\ length (ev_integrals e) = 4%nat).
Proof.
  unfold read_line_and_store_event. intros H.
  destruct line as [|first rest]; [discriminate H|].
  change (py_index (first :: rest) 0) with (Ok (A := string) first) in H.
  cbn [mbind exc_mbind exc_bind] in H.
  destruct first as [|ch first']; [discriminate H|].
  revert H. destruct (Ascii.eqb ch "#"); intros H.
  - inversion H; subst. left. repeat split. discriminate.
  - right.
    do 20 (destruct rest as [|? rest]; [discriminate H|]).
    destruct rest as [|? rest]; [|discriminate H].
    do 19 bind_ok H.
    injection H as H1 H2. subst ts table'. eexists. split; [reflexivity|].
    cbn. repeat split.
Qed.
End StoreEvents.

Section StoredEvents.
Context {py : PyBuiltins}.

Lemma read_line_wrong_field_count (ch : ascii) (first' : string)
  (rest : list string) (table : list event) :
  Ascii.eqb ch "#" = false ->
  length rest <> 20%nat ->
  read_line_and_store_event (String ch first' :: rest) table
  = Raise "ValueError: wrong number of values to unpack".
Proof.
  intros Hch Hlen. unfold read_line_and_store_event.
  change (py_index (String ch first' :: rest) 0)
    with (Ok (A := string) (String ch first')).
  cbn [mbind exc_mbind exc_bind]. rewrite Hch.
  do 20 (destruct rest as [|? rest]; [reflexivity|]).
  destruct rest as [|? rest]; [cbn in Hlen; congruence|reflexivity].
Qed.

(** X18. Lines that store nothing.  A line whose first field starts with
    '#' is skipped with result 0.0, whatever its number of fields; an empty
    line and a line with an empty first field raise [IndexError]; any other
    line that does not have exactly 21 fields raises [ValueError] before
    anything is converted. *)
Theorem read_line_skips_or_rejects (table : list event) :
  (forall rest fields,
      read_line_and_store_event (String "#" rest :: fields) table
      = Ok (0, table))
  /\ read_line_and_store_event [] table
     = Raise "IndexError: list index out of range"
  /\ (forall fields,
         read_line_and_store_event (EmptyString :: fields) table
         = Raise "IndexError: string index out of range")
  /\ (forall ch first' rest,
         Ascii.eqb ch "#" = false ->
         length rest <> 20%nat ->
         read_line_and_store_event (String ch first' :: rest) table
         = Raise "ValueError: wrong number of values to unpack").
Proof.
  split; [|split; [|split]].
  - intros rest fields. reflexivity.
  - reflexivity.
  - intros fields. reflexivity.
  - intros ch first' rest. apply read_line_wrong_field_count.
Qed.


Lemma event_loop_result (reader : list (list string))
  (table table' : list event) :
  download_data_event_loop reader table = Ok table' ->
  exists added,
    table' = table ++ added
    /\ (length added <= length reader)%nat
    /\ map ev_event_id added
       = map (fun k => Z.of_nat (length table + k)) (seq 0 (length added)).
Proof.
  unfold download_data_event_loop.
  revert table. induction reader as [|line reader IH]; intros table H.
  - cbn in H. injection H as <-. exists []. rewrite app_nil_r.
    repeat split. cbn. lia.
  - cbn [exc_foldM] in H.
    destruct (read_line_and_store_event line table) as [[ts tbl]|msg] eqn:E;
      cbn [mbind exc_mbind exc_bind snd] in H; [|discriminate H].
    destruct (IH tbl H) as (added & -> & Hlen & Hids).
    destruct (read_line_result line table tbl ts E)
      as [(_ & -> & _)|(e & -> & _ & Hid & _)].
    + exists added. repeat split; [cbn [length]; lia|exact Hids].
    + exists (e :: added). rewrite <- app_assoc. split; [reflexivity|].
      split; [cbn [length]; lia|].
      cbn [length seq map]. rewrite Hid, Nat.add_0_r. f_equal.
      rewrite Hids, length_app. cbn [length].
      rewrite <- seq_shift, map_map. apply map_ext. intros k. f_equal. lia.
Qed.

(** X20. The event loop only appends, at most one row per line, and it
    numbers the rows: started on an empty table, the [event_id] of row [k]
    of the resulting table is [k]. *)
Theorem event_loop_numbers_rows (reader : list (list string))
  (table : list event) :
  download_data_event_loop reader [] = Ok table ->
  map ev_event_id table = map Z.of_nat (seq 0 (length table))
  /\ (length table <= length reader)%nat.
Proof.
  intros H. destruct (event_loop_result reader [] table H)
    as (added & -> & Hlen & Hids).
  cbn [app length Nat.add] in *. split; [exact Hids|exact Hlen].
Qed.
End StoredEvents.

Lemma read_line_rejects_two_fields :
  Ascii.eqb "1" "#" = false
  /\ length ["2"%string] <> 20%nat
  /\ read_line_and_store_event (py := decimal_builtins)
       ["1"; "2"]%string []
     = Raise "ValueError: wrong number of values to unpack".
Proof.
  split; [reflexivity|]. split; [discriminate|].
  apply (read_line_skips_or_rejects (py := decimal_builtins) []);
    [reflexivity|discriminate].
Defined.


Lemma event_loop_numbers_three_lines :
  exists table,
    download_data_event_loop (py := decimal_builtins)
      [comment_line; event_line; event_line] [] = Ok table
    /\ map ev_event_id table = map Z.of_nat (seq 0 (length table))
    /\ (length table <= 3)%nat.
Proof.
  destruct (download_data_event_loop (py := decimal_builtins)
              [comment_line; event_line; event_line] []) as [table|msg] eqn:E;
    [|vm_compute in E; discriminate E].
  exists table. split; [reflexivity|].
  exact (event_loop_numbers_rows (py := decimal_builtins)
           [comment_line; event_line; event_line] table E).
Defined.

(** ** The first free file name *)

Lemma string_length_app (s1 s2 : string) :
  String.length (s1 ++ s2)
  = (String.length s1 + String.length s2)%nat.
Proof.
  induction s1 as [|a s1 IH]; [reflexivity|].
  change (S (String.length (s1 ++ s2))
          = S (String.length s1 + String.length s2)).
  rewrite IH. reflexivity.
Qed.

Lemma string_app_inv_tail (s1 s2 t : string) :
  (s1 ++ t = s2 ++ t)%string -> s1 = s2.
Proof.
  revert s2. induction s1 as [|a s1 IH]; intros [|b s2] H.
  - reflexivity.
  - apply (f_equal String.length) in H.
    rewrite !string_length_app in H. cbn [String.length] in H. lia.
  - apply (f_equal String.length) in H.
    rewrite !string_length_app in H. cbn [String.length] in H. lia.
  - change (String a (s1 ++ t) = String b (s2 ++ t))%string in H.
    injection H as -> H. f_equal. apply IH. exact H.
Qed.

Lemma numbered_path_inj (i j : Z) :
  numbered_path i = numbered_path j -> i = j.
Proof.
  unfold numbered_path. intros H.
  apply (String.app_inj "data") in H.
  apply string_app_inv_tail in H.
  apply (inj pretty) in H. exact H.
Qed.

Lemma first_available_from_some (existing : gset string) (fuel : nat)
  (idx : Z) (path : string) :
  first_available_from existing fuel idx = Some path ->
  exists k,
    (idx <= k < idx + Z.of_nat fuel)%Z
    /\ path = numbered_path k
    /\ (path ∉ existing)
    /\ (forall j, (idx <= j < k)%Z -> numbered_path j ∈ existing).
Proof.
  revert idx. induction fuel as [|fuel IH]; intros idx H; [discriminate H|].
  cbn [first_available_from] in H.
  destruct (bool_decide (numbered_path idx ∈ existing)) eqn:E.
  - apply bool_decide_eq_true in E.
    destruct (IH (idx + 1)%Z H) as (k & Hk & Hp & Hfree & Hbelow).
    exists k. repeat split; try assumption; try lia.
    intros j Hj. destruct (Z.eq_dec j idx) as [->|Hne]; [exact E|].
    apply Hbelow. lia.
  - apply bool_decide_eq_false in E. injection H as <-.
    exists idx. repeat split; try assumption; try lia.
Qed.

Lemma first_available_from_none (existing : gset string) (fuel : nat)
  (idx : Z) :
  first_available_from existing fuel idx = None ->
  forall k, (k < fuel)%nat -> numbered_path (idx + Z.of_nat k) ∈ existing.
Proof.
  revert idx. induction fuel as [|fuel IH]; intros idx H k Hk; [lia|].
  cbn [first_available_from] in H.
  destruct (bool_decide (numbered_path idx ∈ existing)) eqn:E;
    [|discriminate H].
  apply bool_decide_eq_true in E.
  destruct k as [|k].
  - rewrite Z.add_0_r. exact E.
  - replace (idx + Z.of_nat (S k))%Z with (idx + 1 + Z.of_nat k)%Z by lia.
    apply (IH (idx + 1)%Z H). lia.
Qed.

Lemma numbered_paths_do_not_all_exist (existing : gset string) (idx : Z) :
  ~ (forall k, (k < S (size existing))%nat ->
               numbered_path (idx + Z.of_nat k) ∈ existing).
Proof.
  intros H.
  set (names := map (fun k => numbered_path (idx + Z.of_nat k))
                    (seq 0 (S (size existing)))).
  assert (Hnodup : NoDup names).
  { apply NoDup_fmap_2.
    - intros a b Hab. apply numbered_path_inj in Hab. lia.
    - apply NoDup_seq. }
  assert (Hsub : list_to_set (C := gset string) names ⊆ existing).
  { intros p Hp. apply elem_of_list_to_set in Hp.
    apply list_elem_of_In, in_map_iff in Hp.
    destruct Hp as (k & <- & Hk). apply in_seq in Hk. apply H. lia. }
  apply subseteq_size in Hsub.
  rewrite size_list_to_set in Hsub by exact Hnodup.
  subst names. rewrite length_map, length_seq in Hsub. lia.
Qed.

(** X21. [_first_available_numbered_path] always finds a name: it returns
    [data<k>.h5] for the least [k >= 1] whose file does not exist; the
    returned path does not exist and every lower-numbered one does. *)
Theorem first_available_path_is_least_free (existing : gset string) :
  exists k,
    (1 <= k)%Z
    /\ first_available_numbered_path existing = Some (numbered_path k)
    /\ (numbered_path k ∉ existing)
    /\ (forall j, (1 <= j < k)%Z -> numbered_path j ∈ existing).
Proof.
  unfold first_available_numbered_path.
  destruct (first_available_from existing (S (size existing)) 1)
    as [path|] eqn:E.
  - destruct (first_available_from_some _ _ _ _ E)
      as (k & Hk & -> & Hfree & Hbelow).
    exists k. repeat split; try assumption; lia.
  - exfalso. apply (numbered_paths_do_not_all_exist existing 1).
    apply first_available_from_none. exact E.
Qed.

Example first_available_path_skips_taken :
  first_available_numbered_path {["data1.h5"; "data2.h5"; "data4.h5"]}
  = Some "data3.h5"%string.
Proof. vm_compute. reflexivity. Qed.

(** ** Seeds of a CORSIKA batch *)

Lemma gen_random_seeds_result (self : CorsikaBatch) (taken : list string)
  (seed1 seed2 : Z) :
  (seed_name seed1 seed2 ∉ taken ->
   CorsikaBatch_gen_random_seeds self taken seed1 seed2
   = Ok {| cb_energy := cb_energy self;
           cb_particle := cb_particle self;
           cb_queue := cb_queue self;
           cb_seed1 := Some seed1;
           cb_seed2 := Some seed2;
           cb_rundir := Some (seed_name seed1 seed2 ++ "/")%string |})
  /\ (seed_name seed1 seed2 ∈ taken ->
      CorsikaBatch_gen_random_seeds self taken seed1 seed2
      = Raise "AttributeError: 'CorsikaBatch' object has no attribute 'get_random_seeds'").
Proof.
  unfold CorsikaBatch_gen_random_seeds. split; intros H.
  - rewrite bool_decide_eq_false_2 by exact H. reflexivity.
  - rewrite bool_decide_eq_true_2 by exact H. reflexivity.
Qed.

(** X22. [gen_random_seeds] stores the drawn seeds and the run directory
    [<seed1>_<seed2>/] exactly when no entry of either listing chained by
    [taken_seeds] has that name, and leaves energy, particle and queue as
    they were.  When the name is taken it does not draw again: it raises
    [AttributeError], because the retry calls the undefined
    [get_random_seeds]. *)
Theorem gen_random_seeds_stores_fresh_or_raises (self : CorsikaBatch)
  (datadir tempdir : list string) (seed1 seed2 : Z) :
  let taken := CorsikaBatch_taken_seeds datadir tempdir in
  let name := seed_name seed1 seed2 in
  ((name ∉ datadir) /\ (name ∉ tempdir) ->
   exists self',
     CorsikaBatch_gen_random_seeds self taken seed1 seed2 = Ok self'
     /\ cb_seed1 self' = Some seed1 /\ cb_seed2 self' = Some seed2
     /\ cb_rundir self' = Some (name ++ "/")%string
     /\ cb_energy self' = cb_energy self
     /\ cb_particle self' = cb_particle self
     /\ cb_queue self' = cb_queue self)
  /\ (name ∈ datadir \/ name ∈ tempdir ->
      CorsikaBatch_gen_random_seeds self taken seed1 seed2
      = Raise "AttributeError: 'CorsikaBatch' object has no attribute 'get_random_seeds'").
Proof.
  intros taken name. subst taken name. unfold CorsikaBatch_taken_seeds.
  destruct (gen_random_seeds_result self (datadir ++ tempdir) seed1 seed2)
    as [Hok Hbad].
  split.
  - intros [H1 H2]. eexists. split.
    + apply Hok. rewrite elem_of_app. tauto.
    + repeat split.
  - intros H. apply Hbad. rewrite elem_of_app. exact H.
Qed.

Lemma gen_random_seeds_on_taken_name :
  (seed_name 12 34 ∈ ["12_34"%string] \/ seed_name 12 34 ∈ @nil string)
  /\ CorsikaBatch_gen_random_seeds fresh_batch
       (CorsikaBatch_taken_seeds ["12_34"%string] []) 12 34
     = Raise "AttributeError: 'CorsikaBatch' object has no attribute 'get_random_seeds'".
Proof.
  assert (H : seed_name 12 34 ∈ ["12_34"%string]
              \/ seed_name 12 34 ∈ @nil string)
    by (left; apply list_elem_of_In; left; reflexivity).
  split; [exact H|].
  exact (proj2 (gen_random_seeds_stores_fresh_or_raises fresh_batch
                  ["12_34"%string] [] 12 34) H).
Defined.

Lemma digit_is_not_underscore (ch : ascii) (d : Z) :
  digit_of_ascii ch = Some d -> ch <> "_"%char.
Proof. intros H ->. vm_compute in H. discriminate H. Qed.

Lemma pretty_N_char_digit (x : N) :
  exists d, digit_of_ascii (pretty_N_char x) = Some d.
Proof.
  unfold pretty_N_char.
  repeat (match goal with
          | |- context [match ?v with _ => _ end] => destruct v
          end; try (eexists; vm_compute; reflexivity)).
Qed.

Lemma pretty_N_go_all_digits (x : N) (s : string) :
  all_digits s = true -> all_digits (pretty_N_go x s) = true.
Proof.
  revert s. induction (N.lt_wf_0 x) as [x _ IH]. intros s Hs.
  destruct (N.eq_dec x 0%N) as [->|Hx].
  - rewrite pretty_N_go_0. exact Hs.
  - rewrite pretty_N_go_step by lia. apply IH.
    + apply N.div_lt; lia.
    + cbn [all_digits].
      destruct (pretty_N_char_digit (x `mod` 10)%N) as [d ->]. exact Hs.
Qed.

Lemma pretty_positive_seed_all_digits (seed : Z) :
  (0 < seed)%Z -> all_digits (pretty seed) = true.
Proof.
  intros H. destruct seed as [|p|p]; try lia.
  unfold pretty, pretty_Z, pretty, pretty_positive, pretty, pretty_N.
  destruct (decide (N.pos p = 0%N)); [discriminate|].
  apply pretty_N_go_all_digits. reflexivity.
Qed.

Lemma split_at_underscore (a a' b b' : string) :
  all_digits a = true -> all_digits a' = true ->
  (a ++ "_" ++ b = a' ++ "_" ++ b')%string ->
  a = a' /\ b = b'.
Proof.
  revert a'. induction a as [|ch a IH]; intros [|ch' a'] Ha Ha' H.
  - change (String "_" b = String "_" b') in H. injection H as ->.
    split; reflexivity.
  - change (String "_" b = String ch' (a' ++ "_" ++ b'))%string in H.
    injection H as <- _. cbn [all_digits] in Ha'.
    vm_compute in Ha'. discriminate Ha'.
  - change (String ch (a ++ "_" ++ b) = String "_" b')%string in H.
    injection H as -> _. cbn [all_digits] in Ha.
    vm_compute in Ha. discriminate Ha.
  - change (String ch (a ++ "_" ++ b)
            = String ch' (a' ++ "_" ++ b'))%string in H.
    injection H as -> H. cbn [all_digits] in Ha, Ha'.
    destruct (digit_of_ascii ch'); [|discriminate Ha].
    destruct (IH a' Ha Ha' H) as [-> ->]. split; reflexivity.
Qed.

(** X23. The name [<seed1>_<seed2>] determines the seeds: two draws of
    positive seeds (as [random.randint(1, 900000000)] gives) have the same
    name, hence the same run directory, only if they are the same pair. *)
Theorem seed_name_determines_seeds (seed1 seed2 seed1' seed2' : Z) :
  (0 < seed1)%Z -> (0 < seed1')%Z ->
  seed_name seed1 seed2 = seed_name seed1' seed2' ->
  seed1 = seed1' /\ seed2 = seed2'.
Proof.
  intros H1 H1' H. unfold seed_name in H.
  apply split_at_underscore in H;
    try (apply pretty_positive_seed_all_digits; assumption).
  destruct H as [Ha Hb]. split; apply (inj pretty); assumption.
Qed.

Lemma seed_name_determines_seeds_12_34 :
  (0 < 12)%Z /\ (0 < 12)%Z
  /\ seed_name 12 34 = seed_name 12 34
  /\ 12%Z = 12%Z /\ 34%Z = 34%Z.
Proof.
  assert (H : (0 < 12)%Z) by lia.
  split; [exact H|]. split; [exact H|]. split; [reflexivity|].
  exact (seed_name_determines_seeds 12 34 12 34 H H eq_refl).
Defined.

(** ** Stations in shower coordinates *)

